(** * Voice_Agent_Twilio: the per-call turn pipeline, in Rocq

    A shallow embedding of the two service entry points of the repository,
    [backend/main.py] and [voicecallendpoint/main.py]: the structured event
    logger ([JSONLogger]), the conversation store ([conversations]), the
    completion helper ([get_llm_response]), the speech synthesis helper
    ([generate_tts_audio]) and the webhook handlers [incoming_call] and
    [process_speech].  The other handlers follow: the chat endpoints
    ([chat_endpoint], [chat_endpoint_get]), the audio file server
    ([serve_audio]) and the Twilio credential endpoints
    ([validate_twilio_credentials], [set_twilio_credentials],
    [get_twilio_credentials]), with the Twilio client as one more record of
    oracles ([Twilio]).

    Conventions of the embedding.
    - A Python [str] is a Rocq [string] read as a sequence of code points
      below 256 (Latin-1); [Py.isspace] and [Py.lower] follow Python on that
      range.  Code points above 255 are outside the model.
    - Module-level mutable objects ([conversations], [json_logger.logs]) are
      fields of an explicit [State], threaded by a state-and-exception monad.
    - The outside world (wall clock, Groq client, gTTS, pydub, [os.urandom],
      the file system) is a record [World] of oracles.  A handler is a function
      of the world, so every theorem below holds whatever the collaborators
      answer.
    - Terminal logging ([log.info], [log.error], ...) has no effect on any
      value of the program and is left out. *)

From Stdlib Require Import ZArith Ascii String.
From stdpp Require Import gmap strings list.

Declare Scope py_scope.
Delimit Scope py_scope with py.

(* ===================================================================== *)
(** * Python built-ins used by the handlers *)
(* ===================================================================== *)

Module Py.

(** [str.isspace] on one code point below 256: TAB, LF, VT, FF, CR,
    FS, GS, RS, US, SPACE, NEL (0x85) and NBSP (0xA0). *)
Definition isspace (c : ascii) : bool :=
  let n := N_of_ascii c in
  ((9 <=? n) && (n <=? 13) || (28 <=? n) && (n <=? 32)
   || (n =? 133) || (n =? 160))%N.

(** [str.lower] on one code point below 256: A-Z, and the Latin-1 capitals
    0xC0-0xDE without the multiplication sign 0xD7, move up by 32. *)
Definition lower_char (c : ascii) : ascii :=
  let n := N_of_ascii c in
  if ((65 <=? n) && (n <=? 90)
      || (192 <=? n) && (n <=? 222) && negb (n =? 215))%N
  then ascii_of_N (n + 32) else c.

Fixpoint lower (s : string) : string :=
  match s with
  | EmptyString => EmptyString
  | String c s' => String (lower_char c) (lower s')
  end.

Definition len (s : string) : nat := String.length s.

(** Truth value of a [str]: the empty string is falsy. *)
Definition truthy (s : string) : bool :=
  match s with EmptyString => false | String _ _ => true end.

(** Truth value of a value that is [None] or a [str]. *)
Definition truthy_opt (o : option string) : bool :=
  match o with None => false | Some s => truthy s end.

Fixpoint lstrip (s : string) : string :=
  match s with
  | EmptyString => EmptyString
  | String c s' => if isspace c then lstrip s' else s
  end.

Fixpoint rstrip (s : string) : string :=
  match s with
  | EmptyString => EmptyString
  | String c s' =>
      match rstrip s' with
      | EmptyString => if isspace c then EmptyString else String c EmptyString
      | r => String c r
      end
  end.

(** [s.strip()] *)
Definition strip (s : string) : string := rstrip (lstrip s).

(** [s.rstrip(ch)] for a one-character argument. *)
Fixpoint rstrip_char (ch : ascii) (s : string) : string :=
  match s with
  | EmptyString => EmptyString
  | String c s' =>
      match rstrip_char ch s' with
      | EmptyString => if Ascii.eqb c ch then EmptyString else String c EmptyString
      | r => String c r
      end
  end.

Fixpoint startswith (p s : string) : bool :=
  match p, s with
  | EmptyString, _ => true
  | String a p', String b s' => Ascii.eqb a b && startswith p' s'
  | String _ _, EmptyString => false
  end.

(** [p in s] for two strings: [p] occurs in [s] as a substring. *)
Fixpoint contains (p s : string) : bool :=
  startswith p s ||
  match s with
  | EmptyString => false
  | String _ s' => contains p s'
  end.

(** [x in [a, b, ...]] for a list of strings. *)
Definition in_list (x : string) (l : list string) : bool :=
  existsb (String.eqb x) l.

(** [s.replace(old, new)] for a non-empty [old]: occurrences are replaced
    from the left and do not overlap.  [skip] counts the characters of a
    matched occurrence that are still to be dropped. *)
Fixpoint replace_from (old new s : string) (skip : nat) : string :=
  match s with
  | EmptyString => EmptyString
  | String c s' =>
      match skip with
      | S k => replace_from old new s' k
      | O =>
          if startswith old s
          then String.append new (replace_from old new s' (len old - 1))
          else String c (replace_from old new s' 0)
      end
  end.

Definition replace (old new s : string) : string := replace_from old new s 0.

(** [os.path.basename] (POSIX): what follows the last slash. *)
Fixpoint basename_from (acc s : string) : string :=
  match s with
  | EmptyString => acc
  | String c s' =>
      if Ascii.eqb c "/"%char then basename_from EmptyString s'
      else basename_from (String.append acc (String c EmptyString)) s'
  end.

Definition basename (s : string) : string := basename_from EmptyString s.

(** [l[-n:]]: the last [n] elements, the whole list when it is shorter;
    [l[-0:]] is [l[0:]], the whole list. *)
Definition last_n {A : Type} (n : nat) (l : list A) : list A :=
  match n with
  | O => l
  | S _ => drop (length l - n) l
  end.

(** [s[:n]]: the first [n] characters, the whole string when it is shorter. *)
Fixpoint slice_to (n : nat) (s : string) : string :=
  match n, s with
  | S k, String c s' => String c (slice_to k s')
  | _, _ => EmptyString
  end.

End Py.

(* ===================================================================== *)
(** * Data model *)
(* ===================================================================== *)

(** The roles of a chat message, [{"role": ..., "content": ...}]. *)
Inductive Role := system | user | assistant.

Record Message := { role : Role; content : string }.

(** Values stored under the keys of an event's [data] dictionary.  [JKb] is
    [round(bytes / 1024, 2)], kept as the byte count. *)
Inductive JVal :=
| JNull
| JBool (b : bool)
| JInt (z : Z)
| JStr (s : string)
| JKb (bytes : Z).

(** One entry of [JSONLogger.logs].  The three time fields are renderings of
    one clock reading; [date] and [time] exist in [backend/main.py] only.
    [duration_seconds] is a float number of seconds in the code, kept here
    as the microsecond count of the [timedelta] it comes from. *)
Record LogEntry := {
  timestamp : Z;
  date : option Z;
  time : option Z;
  event_type : string;
  call_sid : option string;
  step : option string;
  data : list (string * JVal);
  duration_seconds : option Z
}.

(** Python exceptions, as far as the handlers tell them apart: the built-in
    [TimeoutError] that [get_llm_response] constructs, and every other
    exception class, with [type(e).__name__] and [str(e)].  The errors of the
    Groq client, of gTTS, of pydub and of the file system are classes of the
    second kind: none of them derives from the built-in [TimeoutError]. *)
Inductive Exn :=
| TimeoutError (msg : string)
| OtherError (type_name msg : string).

Definition str_exn (e : Exn) : string :=
  match e with TimeoutError m => m | OtherError _ m => m end.

Definition type_name_exn (e : Exn) : string :=
  match e with TimeoutError _ => "TimeoutError" | OtherError t _ => t end.

(** What [groq_client.chat.completions.create(...)] followed by
    [completion.choices[0].message.content] yields: the raw content, or an
    error with its class name and description. *)
Inductive GroqOutcome :=
| Completion (raw_content : string)
| GroqRaises (type_name msg : string).

(** The verbs of a TwiML [VoiceResponse], in document order.  A [Gather] is
    always built with [input="speech"], [method="POST"] and
    [speech_timeout="auto"]; only its action varies. *)
Inductive Verb :=
| Say (text voice : string)
| Gather (action : string)
| Play (url : string)
| Hangup.

Definition Response := list Verb.

(** Invocations of the external collaborators, in order. *)
Inductive Call :=
| CallGroq (messages : list Message)
| CallGTTS (text : string).

(** The outside world.  An oracle answers [None] when the operation succeeds
    and [Some (class, description)] when it raises.
    - [clock n]: the [n]-th reading of [datetime.now()], in microseconds;
    - [groq_create messages]: the Groq client's answer to a request;
    - [gtts_new text]: building [gTTS(text=text, lang="en", slow=False)];
    - [gtts_save text mp3_path]: [os.makedirs] and [tts.save(mp3_path)];
    - [mp3_to_wav mp3_path wav_path]: [AudioSegment.from_mp3] and
      [audio.export(wav_path, format="wav")];
    - [urandom_hex n]: the [n]-th value of [os.urandom(4).hex()];
    - [getsize path]: [os.path.getsize] of a file just written;
    - [write_json logs]: opening the log file and dumping [logs] into it;
    - [AUDIO_DIR], [GROQ_LLM_MODEL]: the two settings read from the
      environment at start-up. *)
Record World := {
  clock : nat -> Z;
  groq_create : list Message -> GroqOutcome;
  gtts_new : string -> option (string * string);
  gtts_save : string -> string -> option (string * string);
  mp3_to_wav : string -> string -> option (string * string);
  urandom_hex : nat -> string;
  getsize : string -> Z;
  write_json : list LogEntry -> option (string * string);
  AUDIO_DIR : string;
  GROQ_LLM_MODEL : string
}.

(** The mutable state of a running server process: the module-level
    dictionary [conversations], the list [json_logger.logs], what the log
    file holds ([None]: not known), the number of clock readings and of
    random suffixes taken so far, and the invocations of the collaborators
    so far (a record kept for the proofs; the code keeps none). *)
Record State := {
  conversations : gmap string (list Message);
  logs : list LogEntry;
  log_file : option (list LogEntry);
  ticks : nat;
  rng : nat;
  trace : list Call
}.

(* ===================================================================== *)
(** * The state-and-exception monad of the handlers *)
(* ===================================================================== *)

Inductive Res (A : Type) :=
| Ret (a : A)
| Raise (e : Exn).
Arguments Ret {A} a.
Arguments Raise {A} e.

Definition M (A : Type) : Type := State -> Res A * State.

Definition ret {A} (a : A) : M A := fun s => (Ret a, s).

Definition raise {A} (e : Exn) : M A := fun s => (Raise e, s).

Definition bind {A B} (c : M A) (k : A -> M B) : M B :=
  fun s => match c s with
           | (Ret a, s') => k a s'
           | (Raise e, s') => (Raise e, s')
           end.

(** [try: c  except Exception as e: h e].  Effects of [c] before the error
    stay. *)
Definition try_except {A} (c : M A) (h : Exn -> M A) : M A :=
  fun s => match c s with
           | (Ret a, s') => (Ret a, s')
           | (Raise e, s') => h e s'
           end.

Notation "x <- c ;; k" := (bind c (fun x => k))
  (at level 100, c at next level, right associativity) : py_scope.
Notation "c ;;; k" := (bind c (fun _ => k))
  (at level 100, right associativity) : py_scope.

Open Scope py_scope.

(** ** Updates of one field of the state *)

Definition with_conversations (c : gmap string (list Message)) (s : State) : State :=
  {| conversations := c; logs := logs s; log_file := log_file s;
     ticks := ticks s; rng := rng s; trace := trace s |}.

Definition with_logs (l : list LogEntry) (s : State) : State :=
  {| conversations := conversations s; logs := l; log_file := log_file s;
     ticks := ticks s; rng := rng s; trace := trace s |}.

Definition with_log_file (f : option (list LogEntry)) (s : State) : State :=
  {| conversations := conversations s; logs := logs s; log_file := f;
     ticks := ticks s; rng := rng s; trace := trace s |}.

Definition with_ticks (n : nat) (s : State) : State :=
  {| conversations := conversations s; logs := logs s; log_file := log_file s;
     ticks := n; rng := rng s; trace := trace s |}.

Definition with_rng (n : nat) (s : State) : State :=
  {| conversations := conversations s; logs := logs s; log_file := log_file s;
     ticks := ticks s; rng := n; trace := trace s |}.

Definition with_trace (t : list Call) (s : State) : State :=
  {| conversations := conversations s; logs := logs s; log_file := log_file s;
     ticks := ticks s; rng := rng s; trace := t |}.

(** ** Primitive operations *)

Definition get_conversations : M (gmap string (list Message)) :=
  fun s => (Ret (conversations s), s).

(** [conversations[key] = history] *)
Definition set_conversation (key : string) (history : list Message) : M unit :=
  fun s => (Ret tt, with_conversations (<[key := history]> (conversations s)) s).

(** [conversations.get(key, [])] *)
Definition conversations_get (convs : gmap string (list Message)) (key : string)
    : list Message :=
  default [] (convs !! key).

Definition record_call (c : Call) : M unit :=
  fun s => (Ret tt, with_trace (trace s ++ [c]) s).

(** [self.logs.append(log_entry)] *)
Definition logs_append (e : LogEntry) : M unit :=
  fun s => (Ret tt, with_logs (logs s ++ [e]) s).

Section Primitives.
Variable W : World.

(** [datetime.now()]: the next reading of the wall clock. *)
Definition datetime_now : M Z :=
  fun s => (Ret (clock W (ticks s)), with_ticks (S (ticks s)) s).

(** [(datetime.now() - start).total_seconds()] *)
Definition seconds_since (start : Z) : M Z :=
  t <- datetime_now ;; ret (t - start)%Z.

(** [os.urandom(4).hex()] *)
Definition urandom_4_hex : M string :=
  fun s => (Ret (urandom_hex W (rng s)), with_rng (S (rng s)) s).

(** Run one oracle that may raise. *)
Definition attempt (o : option (string * string)) : M unit :=
  match o with
  | None => ret tt
  | Some (t, m) => raise (OtherError t m)
  end.

(** [with open(self.log_file, 'w') as f: json.dump(self.logs, f, indent=2)].
    After a failed write the content of the file is not known ([None]). *)
Definition dump_logs : M unit :=
  fun s =>
    match write_json W (logs s) with
    | None => (Ret tt, with_log_file (Some (logs s)) s)
    | Some (t, m) => (Raise (OtherError t m), with_log_file None s)
    end.

(** [JSONLogger.save_logs] (the same in both files): the error of a failed
    write goes to the terminal log and is not raised again. *)
Definition save_logs : M unit :=
  try_except dump_logs (fun _ => ret tt).

End Primitives.

(* ===================================================================== *)
(** * Collaborators shared by the two files *)
(* ===================================================================== *)

Section Collaborators.
Variable W : World.

(** [groq_client.chat.completions.create(model=..., messages=messages,
    temperature=1, max_tokens=1024)] and the read of
    [completion.choices[0].message.content]; one request to the service. *)
Definition groq_chat_completion (messages : list Message) : M string :=
  record_call (CallGroq messages) ;;;
  match groq_create W messages with
  | Completion c => ret c
  | GroqRaises t m => raise (OtherError t m)
  end.

(** [f"{AUDIO_DIR}/output/tts_{call_sid}_{os.urandom(4).hex()}.mp3"] *)
Definition mp3_path_of (call_sid hex : string) : string :=
  AUDIO_DIR W +:+ "/output/tts_" +:+ call_sid +:+ "_" +:+ hex +:+ ".mp3".

(** [f"/api/voice/process?call_sid={call_sid}"] *)
Definition process_action (call_sid : string) : string :=
  "/api/voice/process?call_sid=" +:+ call_sid.

(** [f"{base_url}/api/voice/audio/{filename}"] with
    [base_url = str(request.base_url).rstrip("/")]. *)
Definition audio_url_of (request_base_url filename : string) : string :=
  Py.rstrip_char "/"%char request_base_url +:+ "/api/voice/audio/" +:+ filename.

End Collaborators.

(* ===================================================================== *)
(** * Data of the chat, credential and audio endpoints *)
(* ===================================================================== *)

(** A JSON object returned by a handler: its keys in order, with their
    values. *)
Definition JsonDict := list (string * JVal).

(** Truth value of a Python value. *)
Definition truthy_val (v : JVal) : bool :=
  match v with
  | JNull => false
  | JBool b => b
  | JInt z => negb (z =? 0)%Z
  | JStr s => Py.truthy s
  | JKb z => negb (z =? 0)%Z
  end.

(** [a and b]: the value of [a] when it is falsy, the value of [b]
    otherwise. *)
Definition py_and (a b : JVal) : JVal := if truthy_val a then b else a.

(** The module-level dictionary of Twilio credentials
    ([TWILIO_CREDENTIALS], [twilio_credentials]): its four keys are set when
    the module is loaded and no key is ever added or removed. *)
Record Credentials := {
  account_sid : string;
  auth_token : string;
  phone_number : string;
  ui_set : bool
}.

(** What [TwilioClient(account_sid, auth_token)] followed by
    [test_client.api.accounts(account_sid).fetch()] yields: an account with
    its friendly name, a falsy value, or an error. *)
Inductive FetchOutcome :=
| Fetched (friendly_name : string)
| FetchedFalsy
| FetchRaises (type_name msg : string).

(** What [test_client.incoming_phone_numbers.list(phone_number=..., limit=1)]
    yields: the numbers found, or an error. *)
Inductive ListOutcome :=
| Listed (numbers : list string)
| ListRaises (type_name msg : string).

(** The Twilio REST service, as the credential handler meets it. *)
Record Twilio := {
  fetch_account : string -> string -> FetchOutcome;
  list_numbers : string -> string -> string -> ListOutcome
}.

(** What [serve_audio] answers: a file with its media type, or a bare
    status code. *)
Inductive AudioResponse :=
| FileResponse (path media_type : string)
| StatusOnly (status_code : nat).

(** The two Twilio requests of the credential handler, as steps that may
    raise. *)
Definition fetch_account_step (T : Twilio) (sid token : string) : M (option string) :=
  match fetch_account T sid token with
  | Fetched name => ret (Some name)
  | FetchedFalsy => ret None
  | FetchRaises t m => raise (OtherError t m)
  end.

Definition list_numbers_step (T : Twilio) (sid token phone : string)
    : M (list string) :=
  match list_numbers T sid token phone with
  | Listed numbers => ret numbers
  | ListRaises t m => raise (OtherError t m)
  end.

(** [f"{AUDIO_DIR}/output/{filename}"] *)
Definition audio_path_of (W : World) (filename : string) : string :=
  AUDIO_DIR W +:+ "/output/" +:+ filename.

(* ===================================================================== *)
(** * backend/main.py *)
(* ===================================================================== *)

Module Backend.

Definition SYSTEM_PROMPT : string :=
  "You are a helpful AI assistant. Keep responses concise.".
Definition CONVERSATION_HISTORY_LIMIT : nat := 10.

Definition timeout_apology : string :=
  "I apologize, but the request timed out. Please try again.".
Definition error_apology (e : Exn) : string :=
  "I apologize, but I encountered an error: " +:+ str_exn e.
Definition no_speech_prompt : string :=
  "I didn't hear anything. Please speak again.".
Definition stt_failure_prompt : string :=
  "I'm having trouble understanding. Please try again.".

Section Handlers.
Variable W : World.

(** [JSONLogger.log_event], lines 84-98. *)
Definition log_event (event_type : string) (call_sid step : option string)
    (data : list (string * JVal)) (duration : option Z) : M LogEntry :=
  now <- datetime_now W ;;
  let log_entry :=
    {| timestamp := now; date := Some now; time := Some now;
       event_type := event_type; call_sid := call_sid; step := step;
       data := data; duration_seconds := duration |} in
  logs_append log_entry ;;;
  save_logs W ;;;
  ret log_entry.

(** Line 144: ["timeout" in error_str or "timed out" in error_str or
    "connection" in error_str]. *)
Definition timeout_related (error_str : string) : bool :=
  Py.contains "timeout" error_str
  || Py.contains "timed out" error_str
  || Py.contains "connection" error_str.

(** [get_llm_response], lines 120-148. *)
Definition get_llm_response (messages : list Message) : M string :=
  try_except
    (raw <- groq_chat_completion W messages ;;
     ret (Py.strip raw))
    (fun e =>
       let error_str := Py.lower (str_exn e) in
       if timeout_related error_str
       then raise (TimeoutError ("LLM request timed out: " +:+ str_exn e))
       else raise e).

(** [generate_tts_audio], lines 151-174.  [gtts_save] stands for
    [os.makedirs] and [tts.save]; [mp3_to_wav] for
    [AudioSegment.from_mp3] and [audio.export]. *)
Definition generate_tts_audio (text call_sid : string)
    : M (option string * option string) :=
  try_except
    (record_call (CallGTTS text) ;;;
     attempt (gtts_new W text) ;;;
     hex <- urandom_4_hex W ;;
     let mp3_path := mp3_path_of W call_sid hex in
     attempt (gtts_save W text mp3_path) ;;;
     let wav_path := Py.replace ".mp3" ".wav" mp3_path in
     attempt (mp3_to_wav W mp3_path wav_path) ;;;
     ret (Some wav_path, Some mp3_path))
    (fun _ => ret (None, None)).

(** [incoming_call], lines 249-290. *)
Definition incoming_call (CallSid From : string) : M Response :=
  set_conversation CallSid [ {| role := system; content := SYSTEM_PROMPT |} ] ;;;
  let response := [ Say "Hello! Please speak." "alice";
                    Gather (process_action CallSid) ] in
  log_event "call_incoming" (Some CallSid) (Some "call_received")
            [("from", JStr From)] None ;;;
  ret response.

(** Line 420:
    [conversations[call_sid] = messages[-CONVERSATION_HISTORY_LIMIT:]]. *)
Definition commit (call_sid : string) (messages : list Message) : M unit :=
  set_conversation call_sid (Py.last_n CONVERSATION_HISTORY_LIMIT messages).

(** Lines 413-467: the completion step of [process_speech]; yields
    [ai_response]. *)
Definition llm_step (call_sid : string) (turn_num : Z)
    (messages : list Message) : M string :=
  llm_start <- datetime_now W ;;
  try_except
    (ai_response <- get_llm_response messages ;;
     llm_duration <- seconds_since W llm_start ;;
     let messages := messages ++ [ {| role := assistant; content := ai_response |} ] in
     commit call_sid messages ;;;
     log_event "llm" (Some call_sid) (Some "llm_response")
       [ ("model", JStr (GROQ_LLM_MODEL W));
         ("model_response_text", JStr ai_response);
         ("response_length", JInt (Z.of_nat (Py.len ai_response)));
         ("turn_number", JInt turn_num) ]
       (Some llm_duration) ;;;
     ret ai_response)
    (fun e =>
       match e with
       | TimeoutError _ =>
           let ai_response := timeout_apology in
           d <- seconds_since W llm_start ;;
           log_event "llm" (Some call_sid) (Some "llm_timeout")
             [ ("error", JStr (str_exn e));
               ("error_type", JStr "timeout");
               ("turn_number", JInt turn_num) ]
             (Some d) ;;;
           ret ai_response
       | OtherError _ _ =>
           let ai_response := error_apology e in
           d <- seconds_since W llm_start ;;
           log_event "llm" (Some call_sid) (Some "llm_error")
             [ ("error", JStr (str_exn e));
               ("error_type", JStr (type_name_exn e));
               ("turn_number", JInt turn_num) ]
             (Some d) ;;;
           ret ai_response
       end).

(** Lines 473-514: the synthesis step; yields [audio_url]. *)
Definition tts_step (request_base_url call_sid : string) (turn_num : Z)
    (ai_response : string) : M (option string) :=
  tts_start <- datetime_now W ;;
  paths <- generate_tts_audio ai_response call_sid ;;
  let wav_path := fst paths in
  tts_duration <- seconds_since W tts_start ;;
  if Py.truthy_opt wav_path then
    let tts_filename := Py.basename (default EmptyString wav_path) in
    let audio_url := audio_url_of request_base_url tts_filename in
    log_event "tts" (Some call_sid) (Some "text_to_speech")
      [ ("provider", JStr "gtts");
        ("tts_filename", JStr tts_filename);
        ("audio_url", JStr audio_url);
        ("text_length", JInt (Z.of_nat (Py.len ai_response)));
        ("turn_number", JInt turn_num) ]
      (Some tts_duration) ;;;
    ret (Some audio_url)
  else
    log_event "tts" (Some call_sid) (Some "tts_error")
      [ ("error", JStr "TTS generation failed");
        ("error_type", JStr "tts_failure");
        ("fallback", JStr "twilio_tts");
        ("turn_number", JInt turn_num) ]
      (Some tts_duration) ;;;
    ret None.

(** Lines 516-534: the TwiML of a completed turn. *)
Definition turn_response (call_sid : string) (audio_url : option string)
    (ai_response : string) : Response :=
  (if Py.truthy_opt audio_url
   then [ Play (default EmptyString audio_url) ]
   else [ Say ai_response "alice" ])
  ++ [ Gather (process_action call_sid); Hangup ].

(** [process_speech], lines 293-550. *)
Definition process_speech (request_base_url call_sid SpeechResult : string)
    : M Response :=
  process_start_time <- datetime_now W ;;
  if negb (Py.truthy SpeechResult) || (Py.len (Py.strip SpeechResult) <? 2) then
    d <- seconds_since W process_start_time ;;
    log_event "speech_processing" (Some call_sid) (Some "no_speech_detected")
      [ ("error", JStr "No speech or speech too short");
        ("error_type", JStr "silence_or_no_speech");
        ("speech_result_length",
          JInt (if Py.truthy SpeechResult
                then Z.of_nat (Py.len SpeechResult) else 0%Z)) ]
      (Some d) ;;;
    ret [ Say no_speech_prompt "alice"; Gather (process_action call_sid) ]
  else if Py.in_list (Py.lower (Py.strip SpeechResult))
                     [ EmptyString; "error"; "failed"; "timeout" ] then
    d <- seconds_since W process_start_time ;;
    log_event "stt" (Some call_sid) (Some "stt_failure")
      [ ("error", JStr "STT failure");
        ("error_type", JStr "stt_failure");
        ("speech_result", JStr SpeechResult) ]
      (Some d) ;;;
    ret [ Say stt_failure_prompt "alice"; Gather (process_action call_sid) ]
  else
    let user_text := Py.strip SpeechResult in
    convs <- get_conversations ;;
    let turn_num := (Z.of_nat (length (conversations_get convs call_sid)) - 1)%Z in
    stt_start <- datetime_now W ;;
    stt_duration <- seconds_since W stt_start ;;
    log_event "stt" (Some call_sid) (Some "speech_to_text")
      [ ("provider", JStr "twilio");
        ("transcribed_text", JStr user_text);
        ("text_length", JInt (Z.of_nat (Py.len user_text)));
        ("turn_number", JInt turn_num);
        ("note", JStr "Twilio handles STT internally, no raw audio file available") ]
      (Some stt_duration) ;;;
    convs <- get_conversations ;;
    let messages := conversations_get convs call_sid
                    ++ [ {| role := user; content := user_text |} ] in
    ai_response <- llm_step call_sid turn_num messages ;;
    audio_url <- tts_step request_base_url call_sid turn_num ai_response ;;
    let response := turn_response call_sid audio_url ai_response in
    total_duration <- seconds_since W process_start_time ;;
    log_event "speech_processing" (Some call_sid) (Some "complete")
      [ ("turn_number", JInt turn_num); ("total_steps", JInt 4) ]
      (Some total_duration) ;;;
    ret response.

(** [validate_twilio_credentials], lines 177-195. *)
Definition validate_twilio_credentials (account_sid auth_token phone_number : string)
    : bool * option string :=
  if negb (Py.startswith "AC" account_sid) || (Py.len account_sid <? 30) then
    (false, Some "Invalid Account SID format. It should start with 'AC' and be at least 30 characters.")
  else if Py.len auth_token <? 30 then
    (false, Some "Invalid Auth Token format. It should be at least 30 characters.")
  else if negb (Py.startswith "+" phone_number) || (Py.len phone_number <? 10) then
    (false, Some "Invalid Phone Number format. It should start with '+' (e.g., +1234567890).")
  else (true, None).

(** [serve_audio], lines 553-572.  [exists] is [os.path.exists]. *)
Definition serve_audio (exists_ : string -> bool) (filename : string) : AudioResponse :=
  let audio_path := audio_path_of W filename in
  if exists_ audio_path then FileResponse audio_path "audio/wav"
  else StatusOnly 404.

(** [chat_endpoint], lines 575-645. *)
Definition chat_endpoint (message : string) : M JsonDict :=
  start_time <- datetime_now W ;;
  try_except
    (let messages := [ {| role := system; content := SYSTEM_PROMPT |};
                       {| role := user; content := message |} ] in
     ai_response <- get_llm_response messages ;;
     duration <- seconds_since W start_time ;;
     log_event "chat" None (Some "llm_response")
       [ ("model", JStr (GROQ_LLM_MODEL W));
         ("input", JStr message);
         ("response", JStr ai_response);
         ("response_length", JInt (Z.of_nat (Py.len ai_response))) ]
       (Some duration) ;;;
     ret [ ("status", JStr "success");
           ("input", JStr message);
           ("response", JStr ai_response);
           ("model", JStr (GROQ_LLM_MODEL W)) ])
    (fun e =>
       duration <- seconds_since W start_time ;;
       log_event "chat" None (Some "llm_error")
         [ ("error", JStr (str_exn e)); ("input", JStr message) ]
         (Some duration) ;;;
       ret [ ("status", JStr "error"); ("error", JStr (str_exn e)) ]).

(** [chat_endpoint_get], lines 648-718. *)
Definition chat_endpoint_get (message : string) : M JsonDict :=
  start_time <- datetime_now W ;;
  try_except
    (let messages := [ {| role := system; content := SYSTEM_PROMPT |};
                       {| role := user; content := message |} ] in
     ai_response <- get_llm_response messages ;;
     duration <- seconds_since W start_time ;;
     log_event "chat" None (Some "llm_response_get")
       [ ("model", JStr (GROQ_LLM_MODEL W));
         ("input", JStr message);
         ("response", JStr ai_response);
         ("response_length", JInt (Z.of_nat (Py.len ai_response))) ]
       (Some duration) ;;;
     ret [ ("status", JStr "success");
           ("input", JStr message);
           ("response", JStr ai_response);
           ("model", JStr (GROQ_LLM_MODEL W)) ])
    (fun e =>
       duration <- seconds_since W start_time ;;
       log_event "chat" None (Some "llm_error_get")
         [ ("error", JStr (str_exn e)); ("input", JStr message) ]
         (Some duration) ;;;
       ret [ ("status", JStr "error"); ("error", JStr (str_exn e)) ]).

(** Lines 817-831: the message shown for an error of the Twilio client. *)
Definition twilio_error_message (error_msg : string) : string :=
  if Py.contains "20003" error_msg || Py.contains "Authenticate" error_msg
     || Py.contains "Invalid" error_msg
  then "Invalid Account SID or Auth Token. Please check your credentials."
  else if Py.contains "20001" error_msg
  then "Unauthorized. Please check your Account SID and Auth Token."
  else "Failed to connect to Twilio: " +:+ error_msg.

(** [set_twilio_credentials], lines 721-838.  The handler reads and writes
    the dictionary [TWILIO_CREDENTIALS], passed in and out here.  The four
    assignments to it are followed by [log_event] alone, which does not
    raise, so no handler ever runs with the dictionary half written. *)
Definition set_twilio_credentials (T : Twilio)
    (account_sid auth_token phone_number : string) (creds : Credentials)
    : M (JsonDict * Credentials) :=
  try_except
    (let '(is_valid, error_msg) :=
       validate_twilio_credentials account_sid auth_token phone_number in
     if negb is_valid then
       ret ([ ("status", JStr "error");
              ("error", from_option JStr JNull error_msg) ], creds)
     else
       try_except
         (account <- fetch_account_step T account_sid auth_token ;;
          match account with
          | None =>
              ret ([ ("status", JStr "error");
                     ("error", JStr "Failed to validate credentials with Twilio") ],
                   creds)
          | Some friendly_name =>
              found <- try_except
                         (incoming_numbers <-
                            list_numbers_step T account_sid auth_token phone_number ;;
                          ret (negb (bool_decide (incoming_numbers = []))))
                         (fun phone_error => ret true) ;;
              if negb found then
                ret ([ ("status", JStr "error");
                       ("error", JStr ("Phone number " +:+ phone_number
                                       +:+ " not found in your Twilio account.")) ],
                     creds)
              else
                let stored := {| account_sid := account_sid;
                                 auth_token := auth_token;
                                 phone_number := phone_number;
                                 ui_set := true |} in
                log_event "twilio_config" None (Some "credentials_validated_and_set")
                  [ ("account_sid_set", JBool true);
                    ("phone_number", JStr phone_number);
                    ("account_name", JStr friendly_name) ]
                  None ;;;
                ret ([ ("status", JStr "success");
                       ("message",
                        JStr "Twilio credentials validated and connected successfully") ],
                     stored)
          end)
         (fun twilio_error =>
            ret ([ ("status", JStr "error");
                   ("error", JStr (twilio_error_message (str_exn twilio_error))) ],
                 creds)))
    (fun e =>
       ret ([ ("status", JStr "error");
              ("error", JStr ("Error: " +:+ str_exn e)) ], creds)).

(** [get_twilio_credentials], lines 841-880. *)
Definition get_twilio_credentials (creds : Credentials) : JsonDict :=
  let has_credentials :=
    py_and (py_and (py_and (JBool (ui_set creds)) (JStr (account_sid creds)))
                   (JStr (auth_token creds)))
           (JStr (phone_number creds)) in
  [ ("status", JStr "success");
    ("configured", has_credentials);
    ("phone_number",
     JStr (if truthy_val has_credentials then phone_number creds else EmptyString));
    ("account_sid_preview",
     JStr (if truthy_val has_credentials
           then Py.slice_to 10 (account_sid creds) +:+ "..."
           else EmptyString)) ].

End Handlers.
End Backend.

(* ===================================================================== *)
(** * voicecallendpoint/main.py *)
(* ===================================================================== *)

Module VoiceCallEndpoint.

Definition persona : string :=
  "You are a helpful AI assistant. Keep responses concise.".

Section Handlers.
Variable W : World.

(** [JSONLogger.log_event], lines 52-64. *)
Definition log_event (event_type : string) (call_sid step : option string)
    (data : list (string * JVal)) (duration : option Z) : M LogEntry :=
  now <- datetime_now W ;;
  let log_entry :=
    {| timestamp := now; date := None; time := None;
       event_type := event_type; call_sid := call_sid; step := step;
       data := data; duration_seconds := duration |} in
  logs_append log_entry ;;;
  save_logs W ;;;
  ret log_entry.

(** [incoming_call], lines 104-113. *)
Definition incoming_call (CallSid From : string) : M Response :=
  set_conversation CallSid [ {| role := system; content := persona |} ] ;;;
  ret [ Say "Hello! Please speak." "alice"; Gather (process_action CallSid) ].

(** Line 191: [conversations[call_sid] = messages[-10:]]. *)
Definition commit (call_sid : string) (messages : list Message) : M unit :=
  set_conversation call_sid (Py.last_n 10 messages).

(** Lines 177-201: the completion step of [process_speech]; yields
    [ai_response].  The Groq client is called in line, and one handler
    takes every error. *)
Definition llm_step (call_sid : string) (messages : list Message) : M string :=
  try_except
    (start_time <- datetime_now W ;;
     raw <- groq_chat_completion W messages ;;
     end_time <- datetime_now W ;;
     let ai_response := Py.strip raw in
     let messages := messages ++ [ {| role := assistant; content := ai_response |} ] in
     commit call_sid messages ;;;
     ret ai_response)
    (fun e => ret ("Error: " +:+ str_exn e)).

(** Lines 211-293: the synthesis step, written in line; yields
    [audio_url]. *)
Definition tts_step (request_base_url call_sid : string) (turn_num : Z)
    (ai_response : string) : M (option string) :=
  tts_start <- datetime_now W ;;
  try_except
    (tts_generate_start <- datetime_now W ;;
     record_call (CallGTTS ai_response) ;;;
     attempt (gtts_new W ai_response) ;;;
     tts_generate_duration <- seconds_since W tts_generate_start ;;
     mp3_save_start <- datetime_now W ;;
     hex <- urandom_4_hex W ;;
     let mp3_path := mp3_path_of W call_sid hex in
     attempt (gtts_save W ai_response mp3_path) ;;;
     mp3_save_duration <- seconds_since W mp3_save_start ;;
     let mp3_size := getsize W mp3_path in
     wav_convert_start <- datetime_now W ;;
     let wav_path := Py.replace ".mp3" ".wav" mp3_path in
     attempt (mp3_to_wav W mp3_path wav_path) ;;;
     wav_convert_duration <- seconds_since W wav_convert_start ;;
     let wav_size := getsize W wav_path in
     tts_total_duration <- seconds_since W tts_start ;;
     let audio_url := audio_url_of request_base_url (Py.basename wav_path) in
     log_event "tts" (Some call_sid) (Some "text_to_speech")
       [ ("provider", JStr "gtts");
         ("language", JStr "en");
         ("input_text", JStr ai_response);
         ("text_length", JInt (Z.of_nat (Py.len ai_response)));
         ("mp3_path", JStr mp3_path);
         ("mp3_size_kb", JKb mp3_size);
         ("wav_path", JStr wav_path);
         ("wav_size_kb", JKb wav_size);
         ("audio_url", JStr audio_url);
         ("turn_number", JInt turn_num) ]
       (Some tts_total_duration) ;;;
     ret (Some audio_url))
    (fun e =>
       tts_duration <- seconds_since W tts_start ;;
       log_event "tts" (Some call_sid) (Some "tts_error")
         [ ("provider", JStr "gtts");
           ("error", JStr (str_exn e));
           ("error_type", JStr (type_name_exn e));
           ("input_text", JStr ai_response);
           ("text_length", JInt (Z.of_nat (Py.len ai_response)));
           ("fallback", JStr "twilio_tts") ]
         (Some tts_duration) ;;;
       ret None).

(** Lines 296-308: the TwiML of a completed turn. *)
Definition turn_response (call_sid : string) (audio_url : option string)
    (ai_response : string) : Response :=
  (if Py.truthy_opt audio_url
   then [ Play (default EmptyString audio_url) ]
   else [ Say ai_response "alice" ])
  ++ [ Gather (process_action call_sid); Hangup ].

(** [process_speech], lines 116-341. *)
Definition process_speech (request_base_url call_sid SpeechResult : string)
    : M Response :=
  process_start_time <- datetime_now W ;;
  if negb (Py.truthy SpeechResult) || (Py.len (Py.strip SpeechResult) <? 2) then
    d <- seconds_since W process_start_time ;;
    log_event "speech_processing" (Some call_sid) (Some "no_speech_detected")
      [ ("error", JStr "No speech or speech too short") ]
      (Some d) ;;;
    ret [ Gather (process_action call_sid) ]
  else
    let user_text := Py.strip SpeechResult in
    convs <- get_conversations ;;
    let turn_num := (Z.of_nat (length (conversations_get convs call_sid)) - 1)%Z in
    stt_start <- datetime_now W ;;
    stt_duration <- seconds_since W stt_start ;;
    log_event "stt" (Some call_sid) (Some "speech_to_text")
      [ ("provider", JStr "twilio");
        ("raw_speech_result", JStr SpeechResult);
        ("transcribed_text", JStr user_text);
        ("text_length", JInt (Z.of_nat (Py.len user_text)));
        ("turn_number", JInt turn_num);
        ("confidence", JStr "N/A (Twilio built-in)") ]
      (Some stt_duration) ;;;
    convs <- get_conversations ;;
    let messages := conversations_get convs call_sid
                    ++ [ {| role := user; content := user_text |} ] in
    ai_response <- llm_step call_sid messages ;;
    audio_url <- tts_step request_base_url call_sid turn_num ai_response ;;
    response_start <- datetime_now W ;;
    let response := turn_response call_sid audio_url ai_response in
    total_duration <- seconds_since W process_start_time ;;
    response_duration <- seconds_since W response_start ;;
    log_event "speech_processing" (Some call_sid) (Some "response_sent")
      [ ("turn_number", JInt turn_num);
        ("used_audio_file", JBool (bool_decide (is_Some audio_url)));
        ("audio_url", from_option JStr JNull audio_url) ]
      (Some response_duration) ;;;
    log_event "speech_processing" (Some call_sid) (Some "complete")
      [ ("turn_number", JInt turn_num); ("total_steps", JInt 4) ]
      (Some total_duration) ;;;
    ret response.

(** [serve_audio], lines 344-348.  [exists] is [os.path.exists]. *)
Definition serve_audio (exists_ : string -> bool) (filename : string) : AudioResponse :=
  let audio_path := audio_path_of W filename in
  if exists_ audio_path then FileResponse audio_path "audio/wav"
  else StatusOnly 404.

(** [chat_endpoint], lines 367-438. *)
Definition chat_endpoint (message : string) : M JsonDict :=
  start_time <- datetime_now W ;;
  try_except
    (let messages := [ {| role := system; content := persona |};
                       {| role := user; content := message |} ] in
     raw <- groq_chat_completion W messages ;;
     duration <- seconds_since W start_time ;;
     let ai_response := Py.strip raw in
     log_event "chat" None (Some "llm_response")
       [ ("model", JStr (GROQ_LLM_MODEL W));
         ("input", JStr message);
         ("response", JStr ai_response);
         ("response_length", JInt (Z.of_nat (Py.len ai_response))) ]
       (Some duration) ;;;
     ret [ ("status", JStr "success");
           ("input", JStr message);
           ("response", JStr ai_response);
           ("model", JStr (GROQ_LLM_MODEL W)) ])
    (fun e =>
       duration <- seconds_since W start_time ;;
       log_event "chat" None (Some "llm_error")
         [ ("error", JStr (str_exn e));
           ("error_type", JStr (type_name_exn e));
           ("input", JStr message) ]
         (Some duration) ;;;
       ret [ ("status", JStr "error"); ("error", JStr (str_exn e)) ]).

(** [chat_endpoint_get], lines 441-512. *)
Definition chat_endpoint_get (message : string) : M JsonDict :=
  start_time <- datetime_now W ;;
  try_except
    (let messages := [ {| role := system; content := persona |};
                       {| role := user; content := message |} ] in
     raw <- groq_chat_completion W messages ;;
     duration <- seconds_since W start_time ;;
     let ai_response := Py.strip raw in
     log_event "chat" None (Some "llm_response_get")
       [ ("model", JStr (GROQ_LLM_MODEL W));
         ("input", JStr message);
         ("response", JStr ai_response);
         ("response_length", JInt (Z.of_nat (Py.len ai_response))) ]
       (Some duration) ;;;
     ret [ ("status", JStr "success");
           ("input", JStr message);
           ("response", JStr ai_response);
           ("model", JStr (GROQ_LLM_MODEL W)) ])
    (fun e =>
       duration <- seconds_since W start_time ;;
       log_event "chat" None (Some "llm_error_get")
         [ ("error", JStr (str_exn e));
           ("error_type", JStr (type_name_exn e));
           ("input", JStr message) ]
         (Some duration) ;;;
       ret [ ("status", JStr "error"); ("error", JStr (str_exn e)) ]).

(** Lines 621-635: the message shown for an error of the Twilio client. *)
Definition twilio_error_message (error_msg : string) : string :=
  if Py.contains "20003" error_msg || Py.contains "Authenticate" error_msg
     || Py.contains "Invalid" error_msg
  then "Invalid Account SID or Auth Token. Please check your credentials."
  else if Py.contains "20001" error_msg
  then "Unauthorized. Please check your Account SID and Auth Token."
  else "Failed to connect to Twilio: " +:+ error_msg.

(** [set_twilio_credentials], lines 530-642: the format checks are written
    in line.  As in [backend/main.py], the dictionary [twilio_credentials]
    is passed in and out. *)
Definition set_twilio_credentials (T : Twilio)
    (account_sid auth_token phone_number : string) (creds : Credentials)
    : M (JsonDict * Credentials) :=
  try_except
    (if negb (Py.startswith "AC" account_sid) || (Py.len account_sid <? 30) then
       ret ([ ("status", JStr "error");
              ("error", JStr "Invalid Account SID format. It should start with 'AC' and be at least 30 characters.") ],
            creds)
     else if Py.len auth_token <? 30 then
       ret ([ ("status", JStr "error");
              ("error", JStr "Invalid Auth Token format. It should be at least 30 characters.") ],
            creds)
     else if negb (Py.startswith "+" phone_number) || (Py.len phone_number <? 10) then
       ret ([ ("status", JStr "error");
              ("error", JStr "Invalid Phone Number format. It should start with '+' (e.g., +1234567890).") ],
            creds)
     else
       try_except
         (account <- fetch_account_step T account_sid auth_token ;;
          match account with
          | Some friendly_name =>
              found <- try_except
                         (incoming_numbers <-
                            list_numbers_step T account_sid auth_token phone_number ;;
                          ret (negb (bool_decide (incoming_numbers = []))))
                         (fun phone_error => ret true) ;;
              if negb found then
                ret ([ ("status", JStr "error");
                       ("error", JStr ("Phone number " +:+ phone_number
                                       +:+ " not found in your Twilio account. Please verify the number.")) ],
                     creds)
              else
                let stored := {| account_sid := account_sid;
                                 auth_token := auth_token;
                                 phone_number := phone_number;
                                 ui_set := true |} in
                log_event "twilio_config" None (Some "credentials_validated_and_set")
                  [ ("account_sid_set", JBool true);
                    ("phone_number", JStr phone_number);
                    ("account_name", JStr friendly_name) ]
                  None ;;;
                ret ([ ("status", JStr "success");
                       ("message",
                        JStr "Twilio credentials validated and connected successfully") ],
                     stored)
          | None =>
              ret ([ ("status", JStr "error");
                     ("error", JStr "Failed to validate credentials with Twilio") ],
                   creds)
          end)
         (fun twilio_error =>
            ret ([ ("status", JStr "error");
                   ("error", JStr (twilio_error_message (str_exn twilio_error))) ],
                 creds)))
    (fun e =>
       ret ([ ("status", JStr "error");
              ("error", JStr ("Error: " +:+ str_exn e)) ], creds)).

(** [get_twilio_credentials], lines 645-664. *)
Definition get_twilio_credentials (creds : Credentials) : JsonDict :=
  let has_credentials :=
    py_and (py_and (py_and (JBool (ui_set creds)) (JStr (account_sid creds)))
                   (JStr (auth_token creds)))
           (JStr (phone_number creds)) in
  [ ("status", JStr "success");
    ("configured", has_credentials);
    ("phone_number",
     JStr (if truthy_val has_credentials then phone_number creds else EmptyString));
    ("account_sid_preview",
     JStr (if truthy_val has_credentials
           then Py.slice_to 10 (account_sid creds) +:+ "..."
           else EmptyString)) ].

End Handlers.
End VoiceCallEndpoint.

(* ===================================================================== *)
(** * Vocabulary of the specification, read off the handlers' results *)
(* ===================================================================== *)

Module Spec.

(** The directive of a [TurnOutcome]. *)
Inductive Directive :=
| reprompt_no_speech
| reprompt_stt_failure
| play_audio
| speak_text_fallback.

(** The directive a TwiML document stands for.  A completed turn ends with
    [Hangup] after its [Gather]; a re-prompt does not.  The bare [Gather] is
    the re-prompt of [voicecallendpoint/main.py], which keeps listening
    without a spoken prompt. *)
Definition directive_of (r : Response) : option Directive :=
  match r with
  | [ Play _; Gather _; Hangup ] => Some play_audio
  | [ Say _ _; Gather _; Hangup ] => Some speak_text_fallback
  | [ Gather _ ] => Some reprompt_no_speech
  | [ Say t _; Gather _ ] =>
      if String.eqb t Backend.no_speech_prompt then Some reprompt_no_speech
      else if String.eqb t Backend.stt_failure_prompt then Some reprompt_stt_failure
      else None
  | _ => None
  end.


(** The audio reference of an outcome: the URL the document plays. *)
Definition audio_reference (r : Response) : option string :=
  match r with
  | Play url :: _ => Some url
  | _ => None
  end.

(** The text the document speaks, if it speaks. *)
Definition spoken_text (r : Response) : option string :=
  match r with
  | Say t _ :: _ => Some t
  | _ => None
  end.

(** The entries appended to the event log between two states. *)
Definition events_since (s s' : State) : list LogEntry :=
  drop (length (logs s)) (logs s').

(** The collaborator invocations made between two states. *)
Definition calls_since (s s' : State) : list Call :=
  drop (length (trace s)) (trace s').

Definition steps_of (es : list LogEntry) : list (option string) :=
  map step es.

Definition is_groq_call (c : Call) : bool :=
  match c with CallGroq _ => true | CallGTTS _ => false end.

(** The three sentinels of a failed recognition. *)
Definition sentinels : list string := [ "error"; "failed"; "timeout" ].

Definition is_sentinel (transcript : string) : bool :=
  Py.in_list (Py.lower (Py.strip transcript)) sentinels.

(** The input validation of section 4.4, stage 1: the transcript is neither
    empty nor shorter than two characters once trimmed. *)
Definition passes_validation (transcript : string) : bool :=
  negb (String.eqb transcript EmptyString)
  && negb (Py.len (Py.strip transcript) <? 2).

(** The stages of section 4.4 that emit events. *)
Inductive Stage :=
| InputValidation
| RecognitionCheck
| CompletionStage
| Synthesis
| CompletionEvent.

Definition Stage_eqb (a b : Stage) : bool :=
  match a, b with
  | InputValidation, InputValidation
  | RecognitionCheck, RecognitionCheck
  | CompletionStage, CompletionStage
  | Synthesis, Synthesis
  | CompletionEvent, CompletionEvent => true
  | _, _ => false
  end.

(** The stage an event belongs to, by its step label (section 4.4 names the
    labels of each stage; [speech_to_text] carries the event type [stt] of
    the recognition check, [response_sent] belongs to no listed stage). *)
Definition stage_of_step (label : option string) : option Stage :=
  match label with
  | Some l =>
      if String.eqb l "no_speech_detected" then Some InputValidation
      else if String.eqb l "stt_failure" || String.eqb l "speech_to_text"
      then Some RecognitionCheck
      else if String.eqb l "llm_response" || String.eqb l "llm_timeout"
              || String.eqb l "llm_error"
      then Some CompletionStage
      else if String.eqb l "text_to_speech" || String.eqb l "tts_error"
      then Some Synthesis
      else if String.eqb l "complete" then Some CompletionEvent
      else None
  | None => None
  end.

(** The stages one invocation of [process_turn] reaches, in order: a
    failed stage ends the turn. *)
Definition stages_reached (transcript : string) : list Stage :=
  if negb (passes_validation transcript) then [ InputValidation ]
  else if is_sentinel transcript then [ InputValidation; RecognitionCheck ]
  else [ InputValidation; RecognitionCheck; CompletionStage; Synthesis;
         CompletionEvent ].

(** Some appended event belongs to stage [st]. *)
Definition stage_logged (es : list LogEntry) (st : Stage) : bool :=
  existsb (fun e => match stage_of_step (step e) with
                    | Some st' => Stage_eqb st st'
                    | None => false
                    end) es.

(** No reached stage is skipped by the log. *)
Definition no_stage_skipped (transcript : string) (es : list LogEntry) : bool :=
  forallb (stage_logged es) (stages_reached transcript).



(** The two stages of the Speech Synthesis Adapter, for a reply text and
    the MP3 path of this turn: synthesis builds the gTTS object and saves
    the MP3, transcoding converts it to WAV. *)
Definition synthesis_ok (W : World) (text mp3_path : string) : bool :=
  bool_decide (gtts_new W text = None)
  && bool_decide (gtts_save W text mp3_path = None).

Definition transcode_ok (W : World) (mp3_path : string) : bool :=
  bool_decide (mp3_to_wav W mp3_path (Py.replace ".mp3" ".wav" mp3_path) = None).

(** The event label of the completion stage, by what the Completion
    Gateway did (section 4.4, stage 4). *)
Definition completion_label (r : Res string) : string :=
  match r with
  | Ret _ => "llm_response"
  | Raise (TimeoutError _) => "llm_timeout"
  | Raise (OtherError _ _) => "llm_error"
  end.

(** The reply text of the turn: the gateway's text, or the fixed apology
    that stands in for it. *)
Definition reply_of (r : Res string) : string :=
  match r with
  | Ret text => text
  | Raise (TimeoutError m) => Backend.timeout_apology
  | Raise (OtherError t m) => Backend.error_apology (OtherError t m)
  end.

(** The store after the completion stage: a success commits the exchange,
    a failure leaves the store as it was. *)
Definition store_after (r : Res string) (call_sid : string)
    (messages : list Message) (convs : gmap string (list Message))
    : gmap string (list Message) :=
  match r with
  | Ret text =>
      <[call_sid := Py.last_n Backend.CONVERSATION_HISTORY_LIMIT
                      (messages ++ [ {| role := assistant; content := text |} ])]>
        convs
  | Raise _ => convs
  end.

(** The same two for [voicecallendpoint/main.py], whose completion step
    reads the client's answer itself and has one handler for every error. *)
Definition vce_reply_of (g : GroqOutcome) : string :=
  match g with
  | Completion c => Py.strip c
  | GroqRaises _ m => "Error: " +:+ m
  end.

Definition vce_store_after (g : GroqOutcome) (call_sid : string)
    (messages : list Message) (convs : gmap string (list Message))
    : gmap string (list Message) :=
  match g with
  | Completion c =>
      <[call_sid := Py.last_n 10
                      (messages ++ [ {| role := assistant; content := Py.strip c |} ])]>
        convs
  | GroqRaises _ _ => convs
  end.

(** The event label of the synthesis stage (section 4.4, stage 5). *)
Definition synthesis_label (ok : bool) : string :=
  if ok then "text_to_speech" else "tts_error".

(** A run of commits on the store of [backend/main.py]. *)
Fixpoint run_commits (cs : list (string * list Message)) (s : State) : State :=
  match cs with
  | [] => s
  | (k, h) :: cs' => run_commits cs' (snd (Backend.commit k h s))
  end.

(** The same on the store of [voicecallendpoint/main.py]. *)
Fixpoint run_commits_vce (cs : list (string * list Message)) (s : State) : State :=
  match cs with
  | [] => s
  | (k, h) :: cs' => run_commits_vce cs' (snd (VoiceCallEndpoint.commit k h s))
  end.

(** Every stored history is within the window. *)
Definition store_bounded (s : State) : Prop :=
  forall k h, conversations s !! k = Some h ->
              length h <= Backend.CONVERSATION_HISTORY_LIMIT.

(** The reached stages other than a passed input validation. *)
Definition stages_with_events (transcript : string) : list Stage :=
  if passes_validation transcript then tail (stages_reached transcript)
  else stages_reached transcript.

(** The outcome the specification gives to a failed input validation: the
    no-speech re-prompt, one [no_speech_detected] event, no collaborator
    invoked, the store untouched. *)
Definition no_speech_outcome (s : State) (out : Res Response * State) : Prop :=
  exists r e,
    fst out = Ret r
    /\ directive_of r = Some reprompt_no_speech
    /\ events_since s (snd out) = [e]
    /\ step e = Some "no_speech_detected"
    /\ calls_since s (snd out) = []
    /\ conversations (snd out) = conversations s.

(** The outcome the specification gives to a failed recognition: the
    re-prompt directive, an [stt_failure] event, and no request to the
    completion service. *)
Definition stt_reprompt_outcome (s : State) (out : Res Response * State) : Prop :=
  exists r,
    fst out = Ret r
    /\ directive_of r = Some reprompt_stt_failure
    /\ In (Some "stt_failure") (steps_of (events_since s (snd out)))
    /\ existsb is_groq_call (calls_since s (snd out)) = false.

(** The states a server can be in: it starts with an empty store and then
    serves webhook requests, each in a world of its own. *)
Inductive reachable
    (incoming : World -> string -> string -> M Response)
    (process : World -> string -> string -> string -> M Response)
    : State -> Prop :=
| reach_start s :
    conversations s = ∅ -> reachable incoming process s
| reach_incoming W CallSid From s :
    reachable incoming process s ->
    reachable incoming process (snd (incoming W CallSid From s))
| reach_process W base call_sid SpeechResult s :
    reachable incoming process s ->
    reachable incoming process (snd (process W base call_sid SpeechResult s)).

End Spec.

(* ===================================================================== *)
(** * What a computation did *)
(* ===================================================================== *)

(** [effect s s' convs events calls draws]: started in [s], a computation
    ended in [s'] with the store [convs], having appended [events] to the
    event log, invoked the collaborators [calls] and drawn [draws] random
    suffixes. *)
Definition effect (s s' : State) (convs : gmap string (list Message))
    (events : list LogEntry) (calls : list Call) (draws : nat) : Prop :=
  conversations s' = convs
  /\ logs s' = logs s ++ events
  /\ trace s' = trace s ++ calls
  /\ rng s' = draws + rng s.

(** The content of the log file after an attempt to write [l]. *)
Definition file_after (W : World) (l : list LogEntry) : option (list LogEntry) :=
  match write_json W l with None => Some l | Some _ => None end.

(** The state one [log_event] leaves: one clock reading, one entry appended,
    one attempt to rewrite the file. *)
Definition logged (W : World) (e : LogEntry) (s : State) : State :=
  with_log_file (file_after W (logs s ++ [e]))
    (with_logs (logs s ++ [e]) (with_ticks (S (ticks s)) s)).

(** The effect of a computation made of primitive steps only. *)
Ltac effect_by_computation :=
  unfold effect; cbn; rewrite ?app_nil_r; repeat split; try reflexivity; auto.

(** Reduce the primitive steps at the head of a handler. *)
Ltac prims :=
  cbn [bind ret datetime_now seconds_since get_conversations fst snd
       conversations logs log_file ticks rng trace logged
       with_conversations with_logs with_log_file with_ticks with_rng with_trace].

(* ===================================================================== *)
(** * A concrete world and state, for running the handlers *)
(* ===================================================================== *)

Module Demo.

(** A world whose Groq client answers [g] and whose synthesis stages fail
    when told to. *)
Definition world (g : GroqOutcome) (synth_ok transcode_ok disk_ok : bool) : World :=
  {| clock := fun n => (Z.of_nat n * 1000)%Z;
     groq_create := fun _ => g;
     gtts_new := fun _ => None;
     gtts_save := fun _ _ =>
       if synth_ok then None else Some ("gTTSError", "Failed to connect");
     mp3_to_wav := fun _ _ =>
       if transcode_ok then None else Some ("CouldntDecodeError", "ffmpeg failed");
     urandom_hex := fun _ => "0a1b2c3d";
     getsize := fun _ => 2048%Z;
     write_json := fun _ =>
       if disk_ok then None else Some ("OSError", "No space left on device");
     AUDIO_DIR := "audio_files";
     GROQ_LLM_MODEL := "llama-3.3-70b-versatile" |}.

(** The service answers; synthesis and the disk work. *)
Definition happy : World := world (Completion " Hi there ") true true true.

(** The service refuses the request. *)
Definition llm_down : World :=
  world (GroqRaises "AuthenticationError" "Invalid API Key") true true true.

(** The service does not answer in time. *)
Definition llm_slow : World :=
  world (GroqRaises "APITimeoutError" "Request timed out.") true true true.

(** gTTS cannot reach its service. *)
Definition tts_down : World := world (Completion " Hi there ") false true true.


(** The log file cannot be written. *)
Definition disk_full : World := world (Completion " Hi there ") true true false.

(** A history of [n] exchanges after the persona message. *)
Fixpoint exchanges (n : nat) : list Message :=
  match n with
  | O => []
  | S k => exchanges k ++ [ {| role := user; content := "question" |};
                            {| role := assistant; content := "answer" |} ]
  end.

Definition long_history : list Message :=
  {| role := system; content := Backend.SYSTEM_PROMPT |} :: exchanges 5.

(** A freshly started server. *)
Definition fresh : State :=
  {| conversations := ∅; logs := []; log_file := None;
     ticks := 0; rng := 0; trace := [] |}.

Definition base : string := "https://example.test/".

End Demo.

(* ===================================================================== *)
(** * Vocabulary for the properties of the other handlers *)
(* ===================================================================== *)

Module Props.



(** The three format checks of the credential handlers. *)
Definition well_formed (sid token phone : string) : Prop :=
  (exists rest, sid = "AC" +:+ rest) /\ 30 <= Py.len sid
  /\ 30 <= Py.len token
  /\ (exists rest, phone = "+" +:+ rest) /\ 10 <= Py.len phone.










(** The log file holds exactly the in-memory log. *)
Definition synced (s : State) : Prop := log_file s = Some (logs s).

(** Every write of the log file succeeds. *)
Definition disk_works (W : World) : Prop := forall l, write_json W l = None.

(** A computation relates the state it ends in to the state it starts in,
    wherever it starts and whether it returns or raises. *)
Definition relates {A} (R : State -> State -> Prop) (c : M A) : Prop :=
  forall s, R s (snd (c s)).

(** A computation ends in a state where [P] holds when it started in one. *)
Definition keeps {A} (P : State -> Prop) (c : M A) : Prop :=
  relates (fun s s' => P s -> P s') c.

(** A computation ends in a state where [P] holds, wherever it starts. *)
Definition settles {A} (P : State -> Prop) (c : M A) : Prop :=
  relates (fun _ s' => P s') c.

(** A computation never raises. *)
Definition returns {A} (c : M A) : Prop :=
  forall s, exists a, fst (c s) = Ret a.

(** A computation that returns ends in a state where [P] holds. *)
Definition settles_on_return {A} (P : State -> Prop) (c : M A) : Prop :=
  forall s, match c s with (Ret _, s') => P s' | (Raise _, _) => True end.

(** A relation between states that every step of a handler for the call
    [call_sid] respects, in the world [W]: it holds when nothing changes, it
    composes, and it holds across a reading of the clock, a draw of random
    bytes, a call of a collaborator, a write of the history of [call_sid],
    and a logged event. *)
Record stable (W : World) (call_sid : string) (R : State -> State -> Prop)
    : Prop := {
  stable_refl : forall s, R s s;
  stable_trans : forall a b c, R a b -> R b c -> R a c;
  stable_ticks : forall n s, R s (with_ticks n s);
  stable_rng : forall n s, R s (with_rng n s);
  stable_trace : forall t s, R s (with_trace t s);
  stable_store : forall h s,
    R s (with_conversations (<[call_sid := h]> (conversations s)) s);
  stable_logged : forall e s, R s (logged W e s)
}.

(** The event log only grows: the entries that were there stay, in place. *)
Definition log_grows (s s' : State) : Prop := logs s `prefix_of` logs s'.

(** The histories of the calls other than [call_sid] are as they were. *)
Definition others_untouched (call_sid : string) (s s' : State) : Prop :=
  forall k, k <> call_sid -> conversations s' !! k = conversations s !! k.

(** The completion of the turn on [SpeechResult] succeeds, so that the
    exchange is committed: in [backend/main.py] ... *)
Definition turn_commits (W : World) (call_sid SpeechResult : string) (s : State)
    : bool :=
  Spec.passes_validation SpeechResult
  && negb (Spec.is_sentinel SpeechResult)
  && match groq_create W
             (conversations_get (conversations s) call_sid
              ++ [ {| role := user; content := Py.strip SpeechResult |} ]) with
     | Completion _ => true
     | GroqRaises _ _ => false
     end.

(** ... and in [voicecallendpoint/main.py], where a sentinel is a transcript
    like any other. *)
Definition vce_turn_commits (W : World) (call_sid SpeechResult : string)
    (s : State) : bool :=
  Spec.passes_validation SpeechResult
  && match groq_create W
             (conversations_get (conversations s) call_sid
              ++ [ {| role := user; content := Py.strip SpeechResult |} ]) with
     | Completion _ => true
     | GroqRaises _ _ => false
     end.

(** A run of turns of one call, each in a world of its own: the state it
    ends in and the number of turns that committed. *)
Fixpoint run_turns
    (process : World -> string -> string -> string -> M Response)
    (commits : World -> string -> string -> State -> bool)
    (turns : list (World * string)) (base call_sid : string) (s : State)
    : State * nat :=
  match turns with
  | [] => (s, 0)
  | (W, SpeechResult) :: rest =>
      let committed := commits W call_sid SpeechResult s in
      let '(s', n) :=
        run_turns process commits rest base call_sid
          (snd (process W base call_sid SpeechResult s)) in
      (s', (if committed then 1 else 0) + n)
  end.


(** No message of a history has the system role. *)
Definition no_system (h : list Message) : Prop :=
  Forall (fun m => role m <> system) h.

(** The stored history of a call [n] committed exchanges after
    [incoming_call] seeded it with [persona]: the last ten of the persona
    message and the [2 * n] messages of the exchanges.  Up to four exchanges
    all of it is kept; from the fifth on the persona message is gone. *)
Definition window_after (persona : string) (n : nat) (h : option (list Message))
    : Prop :=
  exists msgs,
    length msgs = 2 * n
    /\ no_system msgs
    /\ h = Some (Py.last_n 10 ({| role := system; content := persona |} :: msgs))
    /\ (n <= 4 -> h = Some ({| role := system; content := persona |} :: msgs))
    /\ (5 <= n -> h = Some (Py.last_n 10 msgs) /\ no_system (Py.last_n 10 msgs)
                  /\ length (Py.last_n 10 msgs) = 10).

End Props.

(* ===================================================================== *)
(** * Concrete Twilio services and credentials *)
(* ===================================================================== *)

Module Sample.

Definition sid : string := "AC0123456789abcdef0123456789abcdef".
Definition token : string := "0123456789abcdef0123456789abcdef".
Definition phone : string := "+15550100123".

(** Twilio knows the account and lists the number. *)
Definition twilio_ok : Twilio :=
  {| fetch_account := fun _ _ => Fetched "Acme";
     list_numbers := fun _ _ p => Listed [ p ] |}.

(** Twilio knows the account; listing its numbers fails. *)
Definition twilio_flaky_listing : Twilio :=
  {| fetch_account := fun _ _ => Fetched "Acme";
     list_numbers := fun _ _ _ => ListRaises "TwilioRestException" "HTTP 500 error" |}.

(** Twilio knows the account and does not list the number. *)
Definition twilio_other_number : Twilio :=
  {| fetch_account := fun _ _ => Fetched "Acme";
     list_numbers := fun _ _ _ => Listed [] |}.

(** Twilio refuses the credentials. *)
Definition twilio_rejects : Twilio :=
  {| fetch_account := fun _ _ =>
       FetchRaises "TwilioRestException" "HTTP 401 error: Unable to fetch record: Authenticate";
     list_numbers := fun _ _ _ => Listed [] |}.

(** The dictionary when nothing is configured. *)
Definition no_credentials : Credentials :=
  {| account_sid := EmptyString; auth_token := EmptyString;
     phone_number := EmptyString; ui_set := false |}.

(** The dictionary as the environment variables fill it. *)
Definition env_credentials : Credentials :=
  {| account_sid := sid; auth_token := token; phone_number := phone;
     ui_set := false |}.

End Sample.

(* ===================================================================== *)
(** * Facts about the Python built-ins *)
(* ===================================================================== *)

Section PyFacts.

Lemma truthy_eqb (s : string) :
  Py.truthy s = negb (String.eqb s EmptyString).
Proof. destruct s; reflexivity. Qed.

Lemma truthy_append_r (a b : string) :
  Py.truthy b = true -> Py.truthy (a +:+ b) = true.
Proof. destruct a; simpl; auto. Qed.

Lemma truthy_append_l (a b : string) :
  Py.truthy a = true -> Py.truthy (a +:+ b) = true.
Proof. destruct a; simpl; [discriminate | reflexivity]. Qed.

Lemma len_lower (s : string) : Py.len (Py.lower s) = Py.len s.
Proof.
  unfold Py.len. induction s as [|c s IH]; simpl; [reflexivity|].
  now rewrite IH.
Qed.

Lemma lstrip_truthy (s : string) :
  Py.truthy (Py.lstrip s) = true -> Py.truthy s = true.
Proof. destruct s; simpl; auto. Qed.

Lemma rstrip_truthy (s : string) :
  Py.truthy (Py.rstrip s) = true -> Py.truthy s = true.
Proof. destruct s; simpl; auto. Qed.

Lemma strip_truthy (s : string) :
  Py.truthy (Py.strip s) = true -> Py.truthy s = true.
Proof.
  unfold Py.strip. intros H. now apply lstrip_truthy, rstrip_truthy.
Qed.

Lemma startswith_spec (p s : string) :
  Py.startswith p s = true <-> exists post, s = p +:+ post.
Proof.
  revert s. induction p as [|a p IH]; intros s; simpl.
  - split; [intros _; now exists s | reflexivity].
  - destruct s as [|b s].
    + split; [discriminate | intros [post H]; discriminate].
    + rewrite andb_true_iff, Ascii.eqb_eq, IH. split.
      * intros [-> [post ->]]. now exists post.
      * intros [post H]. injection H as -> ->. split; [reflexivity | now exists post].
Qed.


Lemma replace_from_truthy (old new s : string) :
  Py.truthy new = true -> Py.truthy s = true ->
  Py.truthy (Py.replace old new s) = true.
Proof.
  intros Hn Hs. destruct s as [|c s]; [discriminate|].
  unfold Py.replace. simpl.
  destruct (Py.startswith old (String c s)); [|reflexivity].
  now apply truthy_append_l.
Qed.

Lemma last_n_length {A} (n : nat) (l : list A) :
  0 < n -> length (Py.last_n n l) = Nat.min n (length l).
Proof.
  intros Hn. destruct n as [|n]; [lia|].
  unfold Py.last_n. rewrite length_drop. lia.
Qed.

Lemma last_n_suffix {A} (n : nat) (l : list A) : Py.last_n n l `suffix_of` l.
Proof.
  destruct n as [|n]; simpl; [reflexivity | apply suffix_drop].
Qed.

(** When the window is exceeded the first element goes. *)
Lemma last_n_drops_head {A} (n : nat) (x : A) (l : list A) :
  0 < n -> n < length (x :: l) -> Py.last_n n (x :: l) = Py.last_n n l.
Proof.
  intros Hn Hl. destruct n as [|n]; [lia|]. simpl in *.
  destruct (length l - n) as [|k] eqn:E; [lia|].
  simpl. f_equal. lia.
Qed.

End PyFacts.

(* ===================================================================== *)
(** * Running the monad *)
(* ===================================================================== *)

Section Running.

Lemma bind_ret_run {A B} (c : M A) (k : A -> M B) s a s' :
  c s = (Ret a, s') -> bind c k s = k a s'.
Proof. intros H. unfold bind. now rewrite H. Qed.

Lemma effect_events s s' c es ks d :
  effect s s' c es ks d -> Spec.events_since s s' = es.
Proof.
  intros (_ & Hl & _). unfold Spec.events_since. rewrite Hl.
  apply drop_app_length.
Qed.

Lemma effect_calls s s' c es ks d :
  effect s s' c es ks d -> Spec.calls_since s s' = ks.
Proof.
  intros (_ & _ & Ht & _). unfold Spec.calls_since. rewrite Ht.
  apply drop_app_length.
Qed.

Lemma effect_store s s' c es ks d :
  effect s s' c es ks d -> conversations s' = c.
Proof. now intros (Hc & _). Qed.

End Running.

(* ===================================================================== *)
(** * The event logger *)
(* ===================================================================== *)

Section Logger.
Variable W : World.

Lemma save_logs_run s :
  save_logs W s = (Ret tt, with_log_file (file_after W (logs s)) s).
Proof.
  unfold save_logs, try_except, dump_logs, file_after.
  destruct (write_json W (logs s)) as [[t m]|]; reflexivity.
Qed.

Lemma backend_log_event_run et cs st d dur s :
  let e := {| timestamp := clock W (ticks s);
              date := Some (clock W (ticks s));
              time := Some (clock W (ticks s));
              event_type := et; call_sid := cs; step := st; data := d;
              duration_seconds := dur |} in
  Backend.log_event W et cs st d dur s = (Ret e, logged W e s).
Proof.
  intros e. unfold Backend.log_event.
  unfold bind at 1. cbn [datetime_now].
  unfold bind at 1. cbn [logs_append].
  unfold bind at 1. rewrite save_logs_run. reflexivity.
Qed.

Lemma vce_log_event_run et cs st d dur s :
  let e := {| timestamp := clock W (ticks s); date := None; time := None;
              event_type := et; call_sid := cs; step := st; data := d;
              duration_seconds := dur |} in
  VoiceCallEndpoint.log_event W et cs st d dur s = (Ret e, logged W e s).
Proof.
  intros e. unfold VoiceCallEndpoint.log_event.
  unfold bind at 1. cbn [datetime_now].
  unfold bind at 1. cbn [logs_append].
  unfold bind at 1. rewrite save_logs_run. reflexivity.
Qed.


End Logger.

(* ===================================================================== *)
(** * The collaborators' wrappers *)
(* ===================================================================== *)

Section Wrappers.
Variable W : World.


Lemma groq_chat_completion_run messages s :
  groq_chat_completion W messages s =
  (match groq_create W messages with
   | Completion c => Ret c
   | GroqRaises t m => Raise (OtherError t m)
   end, with_trace (trace s ++ [CallGroq messages]) s).
Proof.
  unfold groq_chat_completion, bind. cbn [record_call].
  destruct (groq_create W messages); reflexivity.
Qed.

(** The result of [get_llm_response] is a function of the client's answer;
    the call leaves one request in the trace and nothing else. *)
Lemma get_llm_response_run messages s :
  Backend.get_llm_response W messages s =
  (match groq_create W messages with
   | Completion c => Ret (Py.strip c)
   | GroqRaises t m =>
       if Backend.timeout_related (Py.lower m)
       then Raise (TimeoutError ("LLM request timed out: " +:+ m))
       else Raise (OtherError t m)
   end, with_trace (trace s ++ [CallGroq messages]) s).
Proof.
  unfold Backend.get_llm_response, try_except, bind.
  rewrite groq_chat_completion_run.
  destruct (groq_create W messages) as [c | t m]; [reflexivity|].
  cbn [str_exn].
  destruct (Backend.timeout_related (Py.lower m)); reflexivity.
Qed.

(** [generate_tts_audio] returns, with both paths when the two stages
    succeed and with [(None, None)] otherwise. *)
Lemma generate_tts_audio_run text call_sid s :
  let mp3 := mp3_path_of W call_sid (urandom_hex W (rng s)) in
  let wav := Py.replace ".mp3" ".wav" mp3 in
  exists s' n,
    Backend.generate_tts_audio W text call_sid s =
    (Ret (if Spec.synthesis_ok W text mp3 && Spec.transcode_ok W mp3
          then (Some wav, Some mp3) else (None, None)), s')
    /\ effect s s' (conversations s) [] [CallGTTS text] n.
Proof.
  intros mp3 wav.
  unfold Backend.generate_tts_audio, Spec.synthesis_ok, Spec.transcode_ok,
    try_except, bind.
  cbn [record_call].
  destruct (gtts_new W text) as [[t m]|] eqn:E1; cbn.
  { eexists _, 0. split; [reflexivity | effect_by_computation]. }
  fold mp3.
  destruct (gtts_save W text mp3) as [[t m]|] eqn:E2; cbn.
  { eexists _, 1. split; [reflexivity | effect_by_computation]. }
  fold wav.
  destruct (mp3_to_wav W mp3 wav) as [[t m]|] eqn:E3; cbn.
  { eexists _, 1. split; [reflexivity | effect_by_computation]. }
  eexists _, 1. split; [reflexivity | effect_by_computation].
Qed.

(** The path of a generated WAV file is never the empty string, so the
    truth test [if wav_path:] tells [None] from a path. *)
Lemma wav_path_truthy call_sid hex :
  Py.truthy (Py.replace ".mp3" ".wav" (mp3_path_of W call_sid hex)) = true.
Proof.
  apply replace_from_truthy; [reflexivity|].
  unfold mp3_path_of. apply truthy_append_r. reflexivity.
Qed.

Lemma audio_url_truthy b f : Py.truthy (audio_url_of b f) = true.
Proof. unfold audio_url_of. apply truthy_append_r. reflexivity. Qed.

End Wrappers.

(* ===================================================================== *)
(** * The steps of [process_speech] in backend/main.py *)
(* ===================================================================== *)

Section BackendSteps.
Variable W : World.

(** The gateway's result does not depend on the state it is called in. *)
Lemma get_llm_response_result messages s s0 :
  fst (Backend.get_llm_response W messages s)
  = fst (Backend.get_llm_response W messages s0).
Proof. now rewrite !get_llm_response_run. Qed.

(** The completion step, by the gateway's result: the reply text, the store
    and the one event. *)
Lemma backend_llm_step_run call_sid turn_num messages s :
  let r := fst (Backend.get_llm_response W messages s) in
  exists e s',
    Backend.llm_step W call_sid turn_num messages s = (Ret (Spec.reply_of r), s')
    /\ effect s s' (Spec.store_after r call_sid messages (conversations s))
              [e] [CallGroq messages] 0
    /\ step e = Some (Spec.completion_label r).
Proof.
  intros r. subst r. unfold Backend.llm_step.
  unfold bind at 1. cbn [datetime_now].
  unfold try_except. unfold bind at 1.
  rewrite !get_llm_response_run. cbn [fst].
  destruct (groq_create W messages) as [c | t m].
  - cbn [Spec.reply_of Spec.store_after Spec.completion_label].
    unfold bind at 1. cbn [seconds_since datetime_now bind ret].
    unfold bind at 1. cbn [Backend.commit set_conversation].
    unfold bind at 1. rewrite backend_log_event_run.
    eexists _, _. split; [reflexivity|].
    split; [effect_by_computation | reflexivity].
  - destruct (Backend.timeout_related (Py.lower m)).
    + cbn [Spec.reply_of Spec.store_after Spec.completion_label].
      unfold bind at 1. cbn [seconds_since datetime_now bind ret].
      unfold bind at 1. rewrite backend_log_event_run.
      eexists _, _. split; [reflexivity|].
      split; [effect_by_computation | reflexivity].
    + cbn [Spec.reply_of Spec.store_after Spec.completion_label].
      unfold bind at 1. cbn [seconds_since datetime_now bind ret].
      unfold bind at 1. rewrite backend_log_event_run.
      eexists _, _. split; [reflexivity|].
      split; [effect_by_computation | reflexivity].
Qed.

(** The synthesis step, by the outcome of its two stages: the audio URL and
    the one event. *)
Lemma backend_tts_step_run base call_sid turn_num ai_response s :
  let mp3 := mp3_path_of W call_sid (urandom_hex W (rng s)) in
  let wav := Py.replace ".mp3" ".wav" mp3 in
  let ok := Spec.synthesis_ok W ai_response mp3 && Spec.transcode_ok W mp3 in
  exists e s' n,
    Backend.tts_step W base call_sid turn_num ai_response s
    = (Ret (if ok then Some (audio_url_of base (Py.basename wav)) else None), s')
    /\ effect s s' (conversations s) [e] [CallGTTS ai_response] n
    /\ step e = Some (Spec.synthesis_label ok).
Proof.
  intros mp3 wav ok. unfold Backend.tts_step.
  unfold bind at 1. cbn [datetime_now].
  destruct (generate_tts_audio_run W ai_response call_sid
              (with_ticks (S (ticks s)) s)) as (s1 & n & Hrun & Heff).
  cbn [rng with_ticks] in Hrun. fold mp3 wav ok in Hrun.
  rewrite (bind_ret_run _ _ _ _ _ Hrun).
  unfold bind at 1. cbn [seconds_since datetime_now bind ret].
  destruct Heff as (Hc & Hl & Ht & Hr). cbn in Hc, Hl, Ht, Hr.
  destruct ok; cbn [fst Py.truthy_opt].
  - unfold wav, mp3. rewrite wav_path_truthy.
    unfold bind at 1. rewrite backend_log_event_run.
    eexists _, _, n. split; [reflexivity|].
    split; [unfold effect; cbn; rewrite Hc, Hl, Ht, Hr, app_nil_r;
            repeat split; reflexivity | reflexivity].
  - unfold bind at 1. rewrite backend_log_event_run.
    eexists _, _, n. split; [reflexivity|].
    split; [unfold effect; cbn; rewrite Hc, Hl, Ht, Hr, app_nil_r;
            repeat split; reflexivity | reflexivity].
Qed.

End BackendSteps.

(* ===================================================================== *)
(** * The paths of [process_speech] in backend/main.py *)
(* ===================================================================== *)

Section BackendPaths.

Variable W : World.

Lemma lower_empty s : Py.lower s = EmptyString -> s = EmptyString.
Proof. destruct s; [reflexivity | discriminate]. Qed.

(** The first test of [process_speech] is the negation of
    [Spec.passes_validation]. *)
Lemma validation_test_spec sr :
  negb (Py.truthy sr) || (Py.len (Py.strip sr) <? 2)
  = negb (Spec.passes_validation sr).
Proof.
  unfold Spec.passes_validation. rewrite truthy_eqb.
  now rewrite negb_andb, !negb_involutive.
Qed.

Lemma in_list_cons x a l :
  Py.in_list x (a :: l) = String.eqb x a || Py.in_list x l.
Proof. reflexivity. Qed.

(** On a transcript that passed validation, the second test of
    [process_speech] in [backend/main.py] is the sentinel test: the empty
    string of its list cannot match. *)
Lemma sentinel_test_spec sr :
  Spec.passes_validation sr = true ->
  Py.in_list (Py.lower (Py.strip sr)) [ EmptyString; "error"; "failed"; "timeout" ]
  = Spec.is_sentinel sr.
Proof.
  intros H. unfold Spec.is_sentinel, Spec.sentinels. rewrite in_list_cons.
  destruct (String.eqb_spec (Py.lower (Py.strip sr)) EmptyString) as [E|E];
    [|reflexivity].
  apply lower_empty in E. unfold Spec.passes_validation in H.
  rewrite E in H. cbn in H. rewrite andb_false_r in H. discriminate.
Qed.

(** A sentinel is long enough to pass input validation. *)
Lemma sentinel_passes sr :
  Spec.is_sentinel sr = true -> Spec.passes_validation sr = true.
Proof.
  unfold Spec.is_sentinel, Spec.sentinels, Spec.passes_validation.
  intros H.
  assert (Hlen : 2 <= Py.len (Py.strip sr)).
  { rewrite <- len_lower. unfold Py.in_list in H. cbn [existsb] in H.
    rewrite !orb_true_iff in H.
    destruct H as [H | [H | [H | H]]]; try discriminate;
      apply String.eqb_eq in H; rewrite H; cbn; lia. }
  apply andb_true_iff. split.
  - rewrite <- truthy_eqb. apply strip_truthy.
    destruct (Py.strip sr); [cbn in Hlen; lia | reflexivity].
  - apply negb_true_iff, Nat.ltb_ge. exact Hlen.
Qed.

(** The turn that ends at input validation. *)
Lemma backend_no_speech_run base cs sr s :
  Spec.passes_validation sr = false ->
  exists e s',
    Backend.process_speech W base cs sr s
    = (Ret [ Say Backend.no_speech_prompt "alice"; Gather (process_action cs) ], s')
    /\ effect s s' (conversations s) [e] [] 0
    /\ step e = Some "no_speech_detected".
Proof.
  intros H. unfold Backend.process_speech.
  unfold bind at 1. cbn [datetime_now].
  rewrite validation_test_spec, H. cbn [negb].
  prims.
  erewrite bind_ret_run by apply backend_log_event_run.
  eexists _, _. split; [reflexivity|].
  split; [effect_by_computation | reflexivity].
Qed.

(** The turn that ends at the recognition-failure check. *)
Lemma backend_stt_failure_run base cs sr s :
  Spec.is_sentinel sr = true ->
  exists e s',
    Backend.process_speech W base cs sr s
    = (Ret [ Say Backend.stt_failure_prompt "alice"; Gather (process_action cs) ], s')
    /\ effect s s' (conversations s) [e] [] 0
    /\ step e = Some "stt_failure".
Proof.
  intros H. pose proof (sentinel_passes _ H) as Hv.
  unfold Backend.process_speech.
  unfold bind at 1. cbn [datetime_now].
  rewrite validation_test_spec, Hv, (sentinel_test_spec _ Hv), H. cbn [negb].
  prims.
  erewrite bind_ret_run by apply backend_log_event_run.
  eexists _, _. split; [reflexivity|].
  split; [effect_by_computation | reflexivity].
Qed.

(** The turn that goes through completion and synthesis: its response, the
    store it leaves, its four events and its two collaborator calls. *)
Lemma backend_turn_run base cs sr s :
  Spec.passes_validation sr = true ->
  Spec.is_sentinel sr = false ->
  let messages := conversations_get (conversations s) cs
                  ++ [ {| role := user; content := Py.strip sr |} ] in
  let r := fst (Backend.get_llm_response W messages s) in
  let mp3 := mp3_path_of W cs (urandom_hex W (rng s)) in
  let wav := Py.replace ".mp3" ".wav" mp3 in
  let ok := Spec.synthesis_ok W (Spec.reply_of r) mp3 && Spec.transcode_ok W mp3 in
  let audio_url := if ok then Some (audio_url_of base (Py.basename wav)) else None in
  exists e1 e2 e3 e4 s' n,
    Backend.process_speech W base cs sr s
    = (Ret (Backend.turn_response cs audio_url (Spec.reply_of r)), s')
    /\ effect s s' (Spec.store_after r cs messages (conversations s))
              [e1; e2; e3; e4]
              [CallGroq messages; CallGTTS (Spec.reply_of r)] n
    /\ Spec.steps_of [e1; e2; e3; e4]
       = [ Some "speech_to_text"; Some (Spec.completion_label r);
           Some (Spec.synthesis_label ok); Some "complete" ].
Proof.
  intros Hv Hs messages r mp3 wav ok audio_url.
  unfold Backend.process_speech.
  unfold bind at 1. cbn [datetime_now].
  rewrite validation_test_spec, Hv, (sentinel_test_spec _ Hv), Hs. cbn [negb].
  prims.
  erewrite bind_ret_run by apply backend_log_event_run.
  prims. 
  fold messages.
  match goal with
  | |- context [bind (Backend.llm_step W ?c ?t ?m) ?k ?s0] =>
      destruct (backend_llm_step_run W c t m s0) as (e2 & s2 & Hrun2 & Heff2 & Hst2);
      rewrite (bind_ret_run _ _ _ _ _ Hrun2)
  end.
  rewrite (get_llm_response_result W messages _ s) in Hrun2, Heff2, Hst2 |- *.
  fold r in Hrun2, Heff2, Hst2 |- *.
  match goal with
  | |- context [bind (Backend.tts_step W ?b ?c ?t ?a) ?k ?s0] =>
      destruct (backend_tts_step_run W b c t a s0) as (e3 & s3 & n & Hrun3 & Heff3 & Hst3);
      rewrite (bind_ret_run _ _ _ _ _ Hrun3)
  end.
  prims.
  erewrite bind_ret_run by apply backend_log_event_run.
  destruct Heff2 as (Hc2 & Hl2 & Ht2 & Hr2).
  destruct Heff3 as (Hc3 & Hl3 & Ht3 & Hr3).
  cbn in Hc2, Hl2, Ht2, Hr2.
  rewrite Hr2 in Hrun3, Hst3 |- *.
  fold mp3 wav ok audio_url in Hrun3, Hst3 |- *.
  eexists _, e2, e3, _, _, n. split; [reflexivity|]. split.
  - unfold effect. cbn.
    rewrite Hc3, Hc2, Hl3, Hl2, Ht3, Ht2, Hr3, Hr2, <- !app_assoc.
    repeat split; reflexivity.
  - unfold Spec.steps_of. cbn. now rewrite Hst2, Hst3.
Qed.

End BackendPaths.

(* ===================================================================== *)
(** * The paths of [process_speech] in voicecallendpoint/main.py *)
(* ===================================================================== *)

Section VcePaths.
Variable W : World.

(** The completion step: no event, whatever the client answers. *)
Lemma vce_llm_step_run call_sid messages s :
  let g := groq_create W messages in
  exists s',
    VoiceCallEndpoint.llm_step W call_sid messages s
    = (Ret (Spec.vce_reply_of g), s')
    /\ effect s s' (Spec.vce_store_after g call_sid messages (conversations s))
              [] [CallGroq messages] 0.
Proof.
  intros g. unfold VoiceCallEndpoint.llm_step, try_except.
  unfold bind at 1. cbn [datetime_now].
  unfold bind at 1. rewrite groq_chat_completion_run. fold g.
  destruct g as [c | t m]; cbn [Spec.vce_reply_of Spec.vce_store_after].
  - eexists. split; [reflexivity | effect_by_computation].
  - eexists. split; [reflexivity | effect_by_computation].
Qed.

(** The synthesis step, written in line, behaves as the one of
    [backend/main.py]. *)
Lemma vce_tts_step_run base call_sid turn_num ai_response s :
  let mp3 := mp3_path_of W call_sid (urandom_hex W (rng s)) in
  let wav := Py.replace ".mp3" ".wav" mp3 in
  let ok := Spec.synthesis_ok W ai_response mp3 && Spec.transcode_ok W mp3 in
  exists e s' n,
    VoiceCallEndpoint.tts_step W base call_sid turn_num ai_response s
    = (Ret (if ok then Some (audio_url_of base (Py.basename wav)) else None), s')
    /\ effect s s' (conversations s) [e] [CallGTTS ai_response] n
    /\ step e = Some (Spec.synthesis_label ok).
Proof.
  intros mp3 wav ok. subst ok.
  unfold VoiceCallEndpoint.tts_step, Spec.synthesis_ok, Spec.transcode_ok,
    try_except.
  unfold bind at 1. cbn [datetime_now].
  unfold bind at 1. cbn [datetime_now].
  unfold bind at 1. cbn [record_call].
  destruct (gtts_new W ai_response) as [[t m]|] eqn:E1.
  { cbn -[VoiceCallEndpoint.log_event].
    erewrite bind_ret_run by apply vce_log_event_run.
    eexists _, _, 0. split; [reflexivity|].
    split; [effect_by_computation | reflexivity]. }
  cbn -[VoiceCallEndpoint.log_event Py.replace mp3_path_of].
  fold mp3.
  destruct (gtts_save W ai_response mp3) as [[t m]|] eqn:E2.
  { cbn -[VoiceCallEndpoint.log_event Py.replace mp3_path_of].
    erewrite bind_ret_run by apply vce_log_event_run.
    eexists _, _, 1. split; [reflexivity|].
    split; [effect_by_computation | reflexivity]. }
  cbn -[VoiceCallEndpoint.log_event Py.replace mp3_path_of].
  fold wav.
  destruct (mp3_to_wav W mp3 wav) as [[t m]|] eqn:E3.
  { cbn -[VoiceCallEndpoint.log_event Py.replace mp3_path_of].
    erewrite bind_ret_run by apply vce_log_event_run.
    eexists _, _, 1. split; [reflexivity|].
    split; [effect_by_computation | reflexivity]. }
  cbn -[VoiceCallEndpoint.log_event Py.replace mp3_path_of].
  erewrite bind_ret_run by apply vce_log_event_run.
  eexists _, _, 1. split; [reflexivity|].
  split; [effect_by_computation | reflexivity].
Qed.

(** The turn that ends at input validation: a bare [Gather]. *)
Lemma vce_no_speech_run base cs sr s :
  Spec.passes_validation sr = false ->
  exists e s',
    VoiceCallEndpoint.process_speech W base cs sr s
    = (Ret [ Gather (process_action cs) ], s')
    /\ effect s s' (conversations s) [e] [] 0
    /\ step e = Some "no_speech_detected".
Proof.
  intros H. unfold VoiceCallEndpoint.process_speech.
  unfold bind at 1. cbn [datetime_now].
  rewrite validation_test_spec, H. cbn [negb].
  prims.
  erewrite bind_ret_run by apply vce_log_event_run.
  eexists _, _. split; [reflexivity|].
  split; [effect_by_computation | reflexivity].
Qed.

(** Every other turn goes through completion and synthesis, sentinel or
    not. *)
Lemma vce_turn_run base cs sr s :
  Spec.passes_validation sr = true ->
  let messages := conversations_get (conversations s) cs
                  ++ [ {| role := user; content := Py.strip sr |} ] in
  let g := groq_create W messages in
  let mp3 := mp3_path_of W cs (urandom_hex W (rng s)) in
  let wav := Py.replace ".mp3" ".wav" mp3 in
  let ok := Spec.synthesis_ok W (Spec.vce_reply_of g) mp3 && Spec.transcode_ok W mp3 in
  let audio_url := if ok then Some (audio_url_of base (Py.basename wav)) else None in
  exists e1 e2 e3 e4 s' n,
    VoiceCallEndpoint.process_speech W base cs sr s
    = (Ret (VoiceCallEndpoint.turn_response cs audio_url (Spec.vce_reply_of g)), s')
    /\ effect s s' (Spec.vce_store_after g cs messages (conversations s))
              [e1; e2; e3; e4]
              [CallGroq messages; CallGTTS (Spec.vce_reply_of g)] n
    /\ Spec.steps_of [e1; e2; e3; e4]
       = [ Some "speech_to_text"; Some (Spec.synthesis_label ok);
           Some "response_sent"; Some "complete" ].
Proof.
  intros Hv messages g mp3 wav ok audio_url.
  unfold VoiceCallEndpoint.process_speech.
  unfold bind at 1. cbn [datetime_now].
  rewrite validation_test_spec, Hv. cbn [negb].
  prims.
  erewrite bind_ret_run by apply vce_log_event_run.
  prims. fold messages.
  match goal with
  | |- context [bind (VoiceCallEndpoint.llm_step W ?c ?m) ?k ?s0] =>
      destruct (vce_llm_step_run c m s0) as (s2 & Hrun2 & Heff2);
      rewrite (bind_ret_run _ _ _ _ _ Hrun2)
  end.
  fold g in Hrun2, Heff2 |- *.
  match goal with
  | |- context [bind (VoiceCallEndpoint.tts_step W ?b ?c ?t ?a) ?k ?s0] =>
      destruct (vce_tts_step_run b c t a s0) as (e3 & s3 & n & Hrun3 & Heff3 & Hst3);
      rewrite (bind_ret_run _ _ _ _ _ Hrun3)
  end.
  prims.
  erewrite bind_ret_run by apply vce_log_event_run.
  prims.
  erewrite bind_ret_run by apply vce_log_event_run.
  destruct Heff2 as (Hc2 & Hl2 & Ht2 & Hr2).
  destruct Heff3 as (Hc3 & Hl3 & Ht3 & Hr3).
  cbn in Hc2, Hl2, Ht2, Hr2.
  rewrite Hr2 in Hrun3, Hst3 |- *.
  fold mp3 wav ok audio_url in Hrun3, Hst3 |- *.
  eexists _, e3, _, _, _, n. split; [reflexivity|]. split.
  - unfold effect. cbn.
    rewrite Hc3, Hc2, Hl3, Hl2, Ht3, Ht2, Hr3, Hr2, ?app_nil_r, <- !app_assoc.
    repeat split; reflexivity.
  - unfold Spec.steps_of. cbn. now rewrite Hst3.
Qed.

End VcePaths.

(* ===================================================================== *)
(** * The conversation store and the synthesis helper *)
(* ===================================================================== *)

Section Store.

Lemma run_commits_app a b s :
  Spec.run_commits (a ++ b) s = Spec.run_commits b (Spec.run_commits a s).
Proof.
  revert s. induction a as [|[k h] a IH]; intros s; [reflexivity|].
  cbn. apply IH.
Qed.

Lemma run_commits_vce_app a b s :
  Spec.run_commits_vce (a ++ b) s
  = Spec.run_commits_vce b (Spec.run_commits_vce a s).
Proof.
  revert s. induction a as [|[k h] a IH]; intros s; [reflexivity|].
  cbn. apply IH.
Qed.

Lemma store_bounded_insert (s s' : State) k h :
  Spec.store_bounded s ->
  length h <= Backend.CONVERSATION_HISTORY_LIMIT ->
  conversations s' = <[k := h]> (conversations s) ->
  Spec.store_bounded s'.
Proof.
  intros Hb Hh Hc k' h' Hl. rewrite Hc in Hl.
  destruct (decide (k = k')) as [<- | Hne].
  - rewrite lookup_insert_eq in Hl. now injection Hl as <-.
  - rewrite lookup_insert_ne in Hl by assumption. eauto.
Qed.

Lemma store_bounded_same (s s' : State) :
  Spec.store_bounded s -> conversations s' = conversations s ->
  Spec.store_bounded s'.
Proof. intros Hb Hc k h Hl. rewrite Hc in Hl. eauto. Qed.

Lemma last_n_within {A} (l : list A) :
  length (Py.last_n Backend.CONVERSATION_HISTORY_LIMIT l)
  <= Backend.CONVERSATION_HISTORY_LIMIT.
Proof. rewrite last_n_length by (cbv; lia). lia. Qed.

Lemma run_commits_bounded cs s :
  Spec.store_bounded s -> Spec.store_bounded (Spec.run_commits cs s).
Proof.
  revert s. induction cs as [|[k h] cs IH]; intros s Hb; [exact Hb|].
  cbn. apply IH. eapply store_bounded_insert; [exact Hb | apply last_n_within |].
  reflexivity.
Qed.

Lemma run_commits_vce_bounded cs s :
  Spec.store_bounded s -> Spec.store_bounded (Spec.run_commits_vce cs s).
Proof.
  revert s. induction cs as [|[k h] cs IH]; intros s Hb; [exact Hb|].
  cbn. apply IH. eapply store_bounded_insert; [exact Hb | apply last_n_within |].
  reflexivity.
Qed.

(** What [process_speech] does to the store, in [backend/main.py]. *)
Lemma backend_process_speech_store W base cs sr s :
  let s' := snd (Backend.process_speech W base cs sr s) in
  conversations s' = conversations s
  \/ exists h, conversations s'
               = <[cs := Py.last_n Backend.CONVERSATION_HISTORY_LIMIT h]> (conversations s).
Proof.
  intros s'. subst s'.
  destruct (Spec.passes_validation sr) eqn:Hv.
  - destruct (Spec.is_sentinel sr) eqn:Hs.
    + destruct (backend_stt_failure_run W base cs sr s Hs) as (e & s' & Hrun & Heff & _).
      rewrite Hrun. left. exact (effect_store _ _ _ _ _ _ Heff).
    + destruct (backend_turn_run W base cs sr s Hv Hs)
        as (e1 & e2 & e3 & e4 & s' & n & Hrun & Heff & _).
      rewrite Hrun. cbn [snd]. rewrite (effect_store _ _ _ _ _ _ Heff).
      destruct (fst (Backend.get_llm_response W _ s)); cbn [Spec.store_after];
        [right; eauto | left; reflexivity].
  - destruct (backend_no_speech_run W base cs sr s Hv) as (e & s' & Hrun & Heff & _).
    rewrite Hrun. left. exact (effect_store _ _ _ _ _ _ Heff).
Qed.

Lemma vce_process_speech_store W base cs sr s :
  let s' := snd (VoiceCallEndpoint.process_speech W base cs sr s) in
  conversations s' = conversations s
  \/ exists h, conversations s'
               = <[cs := Py.last_n Backend.CONVERSATION_HISTORY_LIMIT h]> (conversations s).
Proof.
  intros s'. subst s'.
  destruct (Spec.passes_validation sr) eqn:Hv.
  - destruct (vce_turn_run W base cs sr s Hv)
      as (e1 & e2 & e3 & e4 & s' & n & Hrun & Heff & _).
    rewrite Hrun. cbn [snd]. rewrite (effect_store _ _ _ _ _ _ Heff).
    destruct (groq_create W _); cbn [Spec.vce_store_after];
      [right; eauto | left; reflexivity].
  - destruct (vce_no_speech_run W base cs sr s Hv) as (e & s' & Hrun & Heff & _).
    rewrite Hrun. left. exact (effect_store _ _ _ _ _ _ Heff).
Qed.

Lemma backend_incoming_call_store W cs from s :
  conversations (snd (Backend.incoming_call W cs from s))
  = <[cs := [ {| role := system; content := Backend.SYSTEM_PROMPT |} ]]> (conversations s).
Proof.
  unfold Backend.incoming_call. unfold bind at 1. cbn [set_conversation].
  erewrite bind_ret_run by apply backend_log_event_run. reflexivity.
Qed.

Lemma vce_incoming_call_store cs from s :
  conversations (snd (VoiceCallEndpoint.incoming_call cs from s))
  = <[cs := [ {| role := system; content := VoiceCallEndpoint.persona |} ]]>
      (conversations s).
Proof. reflexivity. Qed.

(** The window is an invariant of the running server. *)
Lemma backend_store_bounded s :
  Spec.reachable Backend.incoming_call Backend.process_speech s ->
  Spec.store_bounded s.
Proof.
  induction 1 as [s Hs | W cs from s _ IH | W base cs sr s _ IH].
  - intros k h Hl. rewrite Hs in Hl. discriminate.
  - eapply store_bounded_insert; [exact IH | | apply backend_incoming_call_store].
    cbv. lia.
  - destruct (backend_process_speech_store W base cs sr s) as [Hc | [h Hc]].
    + eapply store_bounded_same; eauto.
    + eapply store_bounded_insert; [exact IH | apply last_n_within | exact Hc].
Qed.

Lemma vce_store_bounded s :
  Spec.reachable (fun _ => VoiceCallEndpoint.incoming_call)
    VoiceCallEndpoint.process_speech s ->
  Spec.store_bounded s.
Proof.
  induction 1 as [s Hs | W cs from s _ IH | W base cs sr s _ IH].
  - intros k h Hl. rewrite Hs in Hl. discriminate.
  - eapply store_bounded_insert; [exact IH | | apply vce_incoming_call_store].
    cbv. lia.
  - destruct (vce_process_speech_store W base cs sr s) as [Hc | [h Hc]].
    + eapply store_bounded_same; eauto.
    + eapply store_bounded_insert; [exact IH | apply last_n_within | exact Hc].
Qed.

Lemma generate_tts_audio_result W text call_sid s :
  let mp3 := mp3_path_of W call_sid (urandom_hex W (rng s)) in
  fst (Backend.generate_tts_audio W text call_sid s)
  = Ret (if Spec.synthesis_ok W text mp3 && Spec.transcode_ok W mp3
         then (Some (Py.replace ".mp3" ".wav" mp3), Some mp3)
         else (None, None)).
Proof.
  intros mp3.
  destruct (generate_tts_audio_run W text call_sid s) as (s' & n & Hrun & _).
  now rewrite Hrun.
Qed.

End Store.

(* ===================================================================== *)
(** * The claims of the specification *)
(* ===================================================================== *)




(** C2 (as amended).  In [backend/main.py], a transcript whose trimmed,
    lower-cased form is "error", "failed" or "timeout" ends the turn at the
    recognition-failure check: [process_speech] returns the
    [reprompt_stt_failure] directive, appends an [stt_failure] event and
    makes no request to the completion service.  [voicecallendpoint/main.py]
    has no such check: there the same transcript is sent to the completion
    service and the reply goes to synthesis, and no [stt_failure] event is
    logged. *)
Theorem sentinel_reprompts_in_backend :
  forall (W : World) (base call_sid SpeechResult : string) (s : State),
    Spec.is_sentinel SpeechResult = true ->
    let messages := conversations_get (conversations s) call_sid
                    ++ [ {| role := user; content := Py.strip SpeechResult |} ] in
    let out_vce := VoiceCallEndpoint.process_speech W base call_sid SpeechResult s in
    Spec.stt_reprompt_outcome s (Backend.process_speech W base call_sid SpeechResult s)
    /\ Spec.calls_since s (snd out_vce)
       = [ CallGroq messages; CallGTTS (Spec.vce_reply_of (groq_create W messages)) ]
    /\ ~ In (Some "stt_failure") (Spec.steps_of (Spec.events_since s (snd out_vce))).
Proof.
  intros W base cs sr s H messages out_vce.
  pose proof (sentinel_passes sr H) as Hv. split.
  - destruct (backend_stt_failure_run W base cs sr s H) as (e & s' & Hrun & Heff & Hst).
    exists [ Say Backend.stt_failure_prompt "alice"; Gather (process_action cs) ].
    rewrite Hrun. cbn [fst snd].
    rewrite (effect_events _ _ _ _ _ _ Heff), (effect_calls _ _ _ _ _ _ Heff).
    split; [reflexivity|]. split; [reflexivity|].
    split; [|reflexivity]. cbn. left. exact Hst.
  - destruct (vce_turn_run W base cs sr s Hv)
      as (e1 & e2 & e3 & e4 & s' & n & Hrun & Heff & Hst).
    subst out_vce. rewrite Hrun. cbn [fst snd].
    rewrite (effect_events _ _ _ _ _ _ Heff), (effect_calls _ _ _ _ _ _ Heff).
    split; [reflexivity|]. rewrite Hst.
    match goal with |- context [Spec.synthesis_label ?b] => destruct b end;
      cbn; intros [?|[?|[?|[?|[]]]]]; discriminate.
Qed.

(** C2, at the transcript " TimeOut ". *)
Lemma sentinel_reprompts_in_backend_witness :
  Spec.is_sentinel " TimeOut " = true
  /\ Spec.stt_reprompt_outcome Demo.fresh
       (Backend.process_speech Demo.happy Demo.base "CA1" " TimeOut " Demo.fresh)
  /\ Spec.calls_since Demo.fresh
       (snd (VoiceCallEndpoint.process_speech Demo.happy Demo.base "CA1" " TimeOut "
               Demo.fresh))
     = [ CallGroq [ {| role := user; content := "TimeOut" |} ]; CallGTTS "Hi there" ].
Proof.
  assert (H : Spec.is_sentinel " TimeOut " = true) by reflexivity.
  destruct (sentinel_reprompts_in_backend Demo.happy Demo.base "CA1" " TimeOut "
              Demo.fresh H) as (Hb & Hcalls & _).
  split; [exact H|]. split; [exact Hb | exact Hcalls].
Defined.

(** C2 as stated fails for [voicecallendpoint/main.py]: on "timeout" its
    [process_speech] does not produce the outcome of a failed recognition. *)
Lemma vce_sends_sentinel_to_completion :
  Spec.is_sentinel "timeout" = true
  /\ ~ Spec.stt_reprompt_outcome Demo.fresh
         (VoiceCallEndpoint.process_speech Demo.happy Demo.base "CA1" "timeout"
            Demo.fresh).
Proof.
  split; [reflexivity|].
  intros (r & _ & _ & _ & Hcalls). vm_compute in Hcalls. discriminate.
Qed.

(** C3 (as amended).  The events one invocation of [process_speech] appends
    are fixed by the path it takes.  In [backend/main.py]: a failed input
    validation appends [no_speech_detected] alone; a failed recognition check
    appends [stt_failure] alone; otherwise the turn appends [speech_to_text],
    then one completion event ([llm_response], [llm_timeout] or [llm_error],
    by what the gateway did), then one synthesis event ([text_to_speech] or
    [tts_error]), then [complete].  So every reached stage other than a
    passed input validation has an event, on its success and on its failure
    branch; a passed input validation has none.  In
    [voicecallendpoint/main.py] the completion stage appends no event: a turn
    appends [speech_to_text], one synthesis event, [response_sent] and
    [complete]. *)
Theorem events_of_a_turn :
  forall (W : World) (base call_sid SpeechResult : string) (s : State),
    let messages := conversations_get (conversations s) call_sid
                    ++ [ {| role := user; content := Py.strip SpeechResult |} ] in
    let mp3 := mp3_path_of W call_sid (urandom_hex W (rng s)) in
    let r := fst (Backend.get_llm_response W messages s) in
    let ok := Spec.synthesis_ok W (Spec.reply_of r) mp3 && Spec.transcode_ok W mp3 in
    let ok_vce := Spec.synthesis_ok W (Spec.vce_reply_of (groq_create W messages)) mp3
                  && Spec.transcode_ok W mp3 in
    let events :=
      Spec.events_since s (snd (Backend.process_speech W base call_sid SpeechResult s)) in
    let events_vce :=
      Spec.events_since s
        (snd (VoiceCallEndpoint.process_speech W base call_sid SpeechResult s)) in
    Spec.steps_of events
    = (if negb (Spec.passes_validation SpeechResult)
       then [ Some "no_speech_detected" ]
       else if Spec.is_sentinel SpeechResult
       then [ Some "stt_failure" ]
       else [ Some "speech_to_text"; Some (Spec.completion_label r);
              Some (Spec.synthesis_label ok); Some "complete" ])
    /\ forallb (Spec.stage_logged events) (Spec.stages_with_events SpeechResult) = true
    /\ Spec.steps_of events_vce
       = (if negb (Spec.passes_validation SpeechResult)
          then [ Some "no_speech_detected" ]
          else [ Some "speech_to_text"; Some (Spec.synthesis_label ok_vce);
                 Some "response_sent"; Some "complete" ]).
Proof.
  intros W base cs sr s messages mp3 r ok ok_vce events events_vce.
  assert (Hb : Spec.steps_of events
    = (if negb (Spec.passes_validation sr)
       then [ Some "no_speech_detected" ]
       else if Spec.is_sentinel sr
       then [ Some "stt_failure" ]
       else [ Some "speech_to_text"; Some (Spec.completion_label r);
              Some (Spec.synthesis_label ok); Some "complete" ])).
  { subst events. destruct (Spec.passes_validation sr) eqn:Hv; cbn [negb].
    - destruct (Spec.is_sentinel sr) eqn:Hs.
      + destruct (backend_stt_failure_run W base cs sr s Hs)
          as (e & s' & Hrun & Heff & Hst).
        rewrite Hrun. cbn [snd]. rewrite (effect_events _ _ _ _ _ _ Heff).
        cbn. now rewrite Hst.
      + destruct (backend_turn_run W base cs sr s Hv Hs)
          as (e1 & e2 & e3 & e4 & s' & n & Hrun & Heff & Hst).
        rewrite Hrun. cbn [snd]. rewrite (effect_events _ _ _ _ _ _ Heff).
        exact Hst.
    - destruct (backend_no_speech_run W base cs sr s Hv)
        as (e & s' & Hrun & Heff & Hst).
      rewrite Hrun. cbn [snd]. rewrite (effect_events _ _ _ _ _ _ Heff).
      cbn. now rewrite Hst. }
  split; [exact Hb|]. split.
  - unfold Spec.stages_with_events, Spec.stages_reached.
    unfold Spec.stage_logged.
    unfold Spec.steps_of in Hb.
    destruct (Spec.passes_validation sr); cbn [negb] in *.
    + destruct (Spec.is_sentinel sr).
      * destruct events as [|e [|e' l]]; try discriminate.
        injection Hb as Hb. cbn. now rewrite Hb.
      * destruct events as [|e1 [|e2 [|e3 [|e4 [|e5 l]]]]]; try discriminate.
        injection Hb as H1 H2 H3 H4. cbn. rewrite H1, H2, H3, H4.
        destruct r as [t | [m | t m]], ok; reflexivity.
    + destruct events as [|e [|e' l]]; try discriminate.
      injection Hb as Hb. cbn. now rewrite Hb.
  - subst events_vce. destruct (Spec.passes_validation sr) eqn:Hv; cbn [negb].
    + destruct (vce_turn_run W base cs sr s Hv)
        as (e1 & e2 & e3 & e4 & s' & n & Hrun & Heff & Hst).
      rewrite Hrun. cbn [snd]. rewrite (effect_events _ _ _ _ _ _ Heff).
      exact Hst.
    + destruct (vce_no_speech_run W base cs sr s Hv)
        as (e & s' & Hrun & Heff & Hst).
      rewrite Hrun. cbn [snd]. rewrite (effect_events _ _ _ _ _ _ Heff).
      cbn. now rewrite Hst.
Qed.

(** C3 as stated fails.  In [backend/main.py] the transcript "timeout"
    reaches input validation and the recognition check and leaves one event,
    [stt_failure]: the passed input validation is skipped by the log.  In
    [voicecallendpoint/main.py] a turn whose completion fails leaves no event
    of the completion stage. *)
Lemma passed_stages_leave_no_event :
  Spec.stages_reached "timeout" = [ Spec.InputValidation; Spec.RecognitionCheck ]
  /\ Spec.steps_of
       (Spec.events_since Demo.fresh
          (snd (Backend.process_speech Demo.happy Demo.base "CA1" "timeout" Demo.fresh)))
     = [ Some "stt_failure" ]
  /\ Spec.no_stage_skipped "timeout"
       (Spec.events_since Demo.fresh
          (snd (Backend.process_speech Demo.happy Demo.base "CA1" "timeout" Demo.fresh)))
     = false
  /\ Spec.steps_of
       (Spec.events_since Demo.fresh
          (snd (VoiceCallEndpoint.process_speech Demo.llm_down Demo.base "CA1" "hello"
                  Demo.fresh)))
     = [ Some "speech_to_text"; Some "text_to_speech"; Some "response_sent";
         Some "complete" ]
  /\ Spec.no_stage_skipped "hello"
       (Spec.events_since Demo.fresh
          (snd (VoiceCallEndpoint.process_speech Demo.llm_down Demo.base "CA1" "hello"
                  Demo.fresh)))
     = false.
Proof. repeat split; vm_compute; reflexivity. Qed.

(** C4 (as amended).  After [incoming_call] has run for a call identifier,
    the history [process_speech] retrieves for it is the single system
    persona message, the turn number is 0 and the request to the completion
    service starts with the persona.  For a call identifier the store does
    not hold, the retrieval ([conversations.get(call_sid, [])]) yields the
    empty history, the turn number is -1 and the request holds the user
    message alone: [process_speech] does not create the persona message. *)
Theorem history_retrieval :
  forall (W : World) (base call_sid From SpeechResult : string) (s : State),
    conversations s !! call_sid = None ->
    Spec.passes_validation SpeechResult = true ->
    Spec.is_sentinel SpeechResult = false ->
    let persona := {| role := system; content := Backend.SYSTEM_PROMPT |} in
    let started := snd (Backend.incoming_call W call_sid From s) in
    let first_request (s0 : State) :=
      head (Spec.calls_since s0
              (snd (Backend.process_speech W base call_sid SpeechResult s0))) in
    let said := {| role := user; content := Py.strip SpeechResult |} in
    (conversations_get (conversations started) call_sid = [ persona ]
     /\ (Z.of_nat (length (conversations_get (conversations started) call_sid)) - 1 = 0)%Z
     /\ first_request started = Some (CallGroq [ persona; said ]))
    /\ (conversations_get (conversations s) call_sid = []
        /\ (Z.of_nat (length (conversations_get (conversations s) call_sid)) - 1 = -1)%Z
        /\ first_request s = Some (CallGroq [ said ])).
Proof.
  intros W base cs from sr s Hnone Hv Hs persona started first_request said.
  assert (Hstarted : conversations started !! cs = Some [ persona ]).
  { subst started. unfold Backend.incoming_call.
    unfold bind at 1. cbn [set_conversation].
    erewrite bind_ret_run by apply backend_log_event_run.
    cbn. apply lookup_insert_eq. }
  assert (Hreq : forall s0,
    first_request s0
    = Some (CallGroq (conversations_get (conversations s0) cs ++ [ said ]))).
  { intros s0. subst first_request. cbn beta.
    destruct (backend_turn_run W base cs sr s0 Hv Hs)
      as (e1 & e2 & e3 & e4 & s' & n & Hrun & Heff & _).
    rewrite Hrun. cbn [snd]. now rewrite (effect_calls _ _ _ _ _ _ Heff). }
  split.
  - rewrite Hreq. unfold conversations_get. rewrite Hstarted. repeat split.
  - rewrite Hreq. unfold conversations_get. rewrite Hnone. repeat split.
Qed.

(** C4, on a freshly started server. *)
Lemma history_retrieval_witness :
  conversations Demo.fresh !! "CA1" = None
  /\ conversations_get
       (conversations (snd (Backend.incoming_call Demo.happy "CA1" "+15550100" Demo.fresh)))
       "CA1"
     = [ {| role := system; content := Backend.SYSTEM_PROMPT |} ]
  /\ conversations_get (conversations Demo.fresh) "CA1" = [].
Proof.
  assert (H1 : conversations Demo.fresh !! "CA1" = None) by reflexivity.
  assert (H2 : Spec.passes_validation "hello" = true) by reflexivity.
  assert (H3 : Spec.is_sentinel "hello" = false) by reflexivity.
  pose proof (history_retrieval Demo.happy Demo.base "CA1" "+15550100" "hello"
                Demo.fresh H1 H2 H3) as [(Ha & _) (Hb & _)].
  split; [exact H1|]. split; [exact Ha | exact Hb].
Defined.

(** C4 as stated fails: on a freshly started server, which has seen no call
    identifier, the retrieved history of "CA1" is empty, the turn number is
    -1, and the request sent to the completion service has no persona
    message. *)
Lemma unseen_call_has_no_persona :
  conversations Demo.fresh !! "CA1" = None
  /\ conversations_get (conversations Demo.fresh) "CA1" = []
  /\ (Z.of_nat (length (conversations_get (conversations Demo.fresh) "CA1")) - 1)%Z
     = (-1)%Z
  /\ Spec.calls_since Demo.fresh
       (snd (Backend.process_speech Demo.happy Demo.base "CA1" "hello" Demo.fresh))
     = [ CallGroq [ {| role := user; content := "hello" |} ]; CallGTTS "Hi there" ].
Proof. repeat split. Qed.

(** C5.  In [backend/main.py], for every call identifier and transcript that
    reach the completion stage: if [get_llm_response] raises the timeout
    failure, then the reply text is the fixed apology for a timeout (it is
    the text handed to synthesis, and the text spoken when synthesis fails),
    an [llm_timeout] event is appended, and the conversation store after the
    turn is the store before it. *)
Theorem timeout_keeps_history :
  forall (W : World) (base call_sid SpeechResult msg : string) (s : State),
    Spec.passes_validation SpeechResult = true ->
    Spec.is_sentinel SpeechResult = false ->
    let messages := conversations_get (conversations s) call_sid
                    ++ [ {| role := user; content := Py.strip SpeechResult |} ] in
    fst (Backend.get_llm_response W messages s) = Raise (TimeoutError msg) ->
    exists r s',
      Backend.process_speech W base call_sid SpeechResult s = (Ret r, s')
      /\ conversations s' = conversations s
      /\ In (Some "llm_timeout") (Spec.steps_of (Spec.events_since s s'))
      /\ Spec.calls_since s s'
         = [ CallGroq messages; CallGTTS Backend.timeout_apology ]
      /\ (r = [ Say Backend.timeout_apology "alice";
                Gather (process_action call_sid); Hangup ]
          \/ exists url, r = [ Play url; Gather (process_action call_sid); Hangup ]).
Proof.
  intros W base cs sr msg s Hv Hs messages Hr.
  destruct (backend_turn_run W base cs sr s Hv Hs)
    as (e1 & e2 & e3 & e4 & s' & n & Hrun & Heff & Hst).
  fold messages in Hrun, Heff, Hst. rewrite Hr in Hrun, Heff, Hst.
  cbn [Spec.reply_of Spec.store_after Spec.completion_label] in Hrun, Heff, Hst.
  eexists _, s'. split; [exact Hrun|].
  split; [exact (effect_store _ _ _ _ _ _ Heff)|].
  rewrite (effect_events _ _ _ _ _ _ Heff), (effect_calls _ _ _ _ _ _ Heff), Hst.
  split; [cbn; tauto|]. split; [reflexivity|].
  unfold Backend.turn_response.
  match goal with |- context [if ?b then Some ?u else None] => destruct b end.
  - right. eexists. cbn [Py.truthy_opt]. rewrite audio_url_truthy. reflexivity.
  - left. reflexivity.
Qed.

(** C5, with a completion service that does not answer in time. *)
Lemma timeout_keeps_history_witness :
  Spec.passes_validation "hello" = true
  /\ Spec.is_sentinel "hello" = false
  /\ fst (Backend.get_llm_response Demo.llm_slow
            (conversations_get (conversations Demo.fresh) "CA1"
             ++ [ {| role := user; content := Py.strip "hello" |} ]) Demo.fresh)
     = Raise (TimeoutError "LLM request timed out: Request timed out.")
  /\ exists r s',
      Backend.process_speech Demo.llm_slow Demo.base "CA1" "hello" Demo.fresh = (Ret r, s')
      /\ conversations s' = conversations Demo.fresh
      /\ In (Some "llm_timeout") (Spec.steps_of (Spec.events_since Demo.fresh s')).
Proof.
  assert (H1 : Spec.passes_validation "hello" = true) by reflexivity.
  assert (H2 : Spec.is_sentinel "hello" = false) by reflexivity.
  assert (H3 : fst (Backend.get_llm_response Demo.llm_slow
            (conversations_get (conversations Demo.fresh) "CA1"
             ++ [ {| role := user; content := Py.strip "hello" |} ]) Demo.fresh)
     = Raise (TimeoutError "LLM request timed out: Request timed out."))
    by reflexivity.
  destruct (timeout_keeps_history Demo.llm_slow Demo.base "CA1" "hello" _ Demo.fresh
              H1 H2 H3) as (r & s' & Hrun & Hc & Hin & _).
  split; [exact H1|]. split; [exact H2|]. split; [exact H3|].
  exists r, s'. split; [exact Hrun|]. split; [exact Hc | exact Hin].
Defined.

(** C6.  For every call identifier and every sequence of commits, in either
    file: after a commit the stored history is the last
    [CONVERSATION_HISTORY_LIMIT] (10) messages of the committed history, the
    whole of it when it is shorter, so its length is at most the limit and it
    is the suffix of that length; once the committed history is longer than
    the limit its first message is dropped, and when the later messages are
    user and assistant messages no system message remains: the persona is
    evicted.  Commits keep every stored history within the limit, and so does
    the running server: every state reachable from an empty store by
    [incoming_call] and [process_speech] has all its histories within the
    limit. *)
Theorem commit_keeps_window :
  forall (s : State) (commits : list (string * list Message))
         (call_sid : string) (history : list Message),
    let limit := Backend.CONVERSATION_HISTORY_LIMIT in
    let after := Spec.run_commits (commits ++ [(call_sid, history)]) s in
    let after_vce := Spec.run_commits_vce (commits ++ [(call_sid, history)]) s in
    (exists stored,
        conversations after !! call_sid = Some stored
        /\ conversations after_vce !! call_sid = Some stored
        /\ length stored <= limit
        /\ length stored = Nat.min limit (length history)
        /\ stored = drop (length history - limit) history
        /\ (limit < length history ->
            forall first rest, history = first :: rest ->
              stored `suffix_of` rest
              /\ (Forall (fun m => role m <> system) rest ->
                  Forall (fun m => role m <> system) stored)))
    /\ (Spec.store_bounded s ->
        Spec.store_bounded after /\ Spec.store_bounded after_vce)
    /\ (forall s0, Spec.reachable Backend.incoming_call Backend.process_speech s0 ->
                   Spec.store_bounded s0)
    /\ (forall s0, Spec.reachable (fun _ => VoiceCallEndpoint.incoming_call)
                     VoiceCallEndpoint.process_speech s0 ->
                   Spec.store_bounded s0).
Proof.
  intros s commits k h limit after after_vce.
  split; [| split; [| split]].
  - exists (Py.last_n limit h).
    split; [| split; [| split; [| split; [| split]]]].
    + subst after. rewrite run_commits_app. cbn. apply lookup_insert_eq.
    + subst after_vce. rewrite run_commits_vce_app. cbn. apply lookup_insert_eq.
    + apply last_n_within.
    + apply last_n_length. cbv. lia.
    + reflexivity.
    + intros Hlong first rest ->.
      rewrite last_n_drops_head by (subst limit; cbv in *; lia).
      split; [apply last_n_suffix|].
      intros Hrest. eapply Forall_forall. intros m Hm.
      rewrite Forall_forall in Hrest. apply Hrest.
      destruct (last_n_suffix limit rest) as [pre Hpre].
      rewrite Hpre. apply elem_of_app. now right.
  - intros Hb. split; [apply run_commits_bounded | apply run_commits_vce_bounded];
      exact Hb.
  - apply backend_store_bounded.
  - apply vce_store_bounded.
Qed.

(** C6, with a history of eleven messages: the persona and five exchanges. *)
Lemma commit_keeps_window_witness :
  length Demo.long_history = 11
  /\ conversations
       (Spec.run_commits ([("CA1", [])] ++ [("CA1", Demo.long_history)]) Demo.fresh)
     !! "CA1"
     = Some (Demo.exchanges 5)
  /\ Forall (fun m => role m <> system) (Demo.exchanges 5).
Proof.
  destruct (commit_keeps_window Demo.fresh [("CA1", [])] "CA1" Demo.long_history)
    as [(stored & Hb & _ & _ & _ & Heq & Hevict) _].
  assert (Hlong : Backend.CONVERSATION_HISTORY_LIMIT < length Demo.long_history)
    by (vm_compute; lia).
  destruct (Hevict Hlong _ _ eq_refl) as [_ Hsys].
  assert (Hstored : stored = Demo.exchanges 5) by (rewrite Heq; reflexivity).
  rewrite Hstored in Hb, Hsys.
  split; [reflexivity|]. split; [exact Hb|].
  apply Hsys. vm_compute. repeat constructor; discriminate.
Defined.



(** C8.  [generate_tts_audio] never raises: it returns [(None, None)]
    exactly when the synthesis stage or the transcode stage fails, and the
    two paths otherwise.  In the turn pipeline of [backend/main.py], when it
    returns [None] for the reply text the response speaks the reply text
    (directive [speak_text_fallback], no audio reference), and when it
    returns a WAV path the response plays the URL of exactly that file
    (directive [play_audio]).  The helper's answer depends on the state only
    through the random suffix, which a turn does not draw before synthesis. *)
Theorem synthesis_failure_falls_back :
  forall (W : World) (base call_sid SpeechResult text : string) (s : State),
    Spec.passes_validation SpeechResult = true ->
    Spec.is_sentinel SpeechResult = false ->
    let messages := conversations_get (conversations s) call_sid
                    ++ [ {| role := user; content := Py.strip SpeechResult |} ] in
    let reply := Spec.reply_of (fst (Backend.get_llm_response W messages s)) in
    let mp3 := mp3_path_of W call_sid (urandom_hex W (rng s)) in
    let gather := Gather (process_action call_sid) in
    (exists paths,
        fst (Backend.generate_tts_audio W text call_sid s) = Ret paths
        /\ (paths = (None, None)
            <-> Spec.synthesis_ok W text mp3 = false \/ Spec.transcode_ok W mp3 = false)
        /\ (paths <> (None, None)
            -> paths = (Some (Py.replace ".mp3" ".wav" mp3), Some mp3)))
    /\ (exists r s',
        Backend.process_speech W base call_sid SpeechResult s = (Ret r, s')
        /\ match fst (Backend.generate_tts_audio W reply call_sid s) with
           | Ret (Some wav_path, _) =>
               let url := audio_url_of base (Py.basename wav_path) in
               r = [ Play url; gather; Hangup ]
               /\ Spec.directive_of r = Some Spec.play_audio
               /\ Spec.audio_reference r = Some url
           | _ =>
               r = [ Say reply "alice"; gather; Hangup ]
               /\ Spec.directive_of r = Some Spec.speak_text_fallback
               /\ Spec.audio_reference r = None
               /\ Spec.spoken_text r = Some reply
           end).
Proof.
  intros W base cs sr text s Hv Hs messages reply mp3 gather. split.
  - eexists. split; [apply generate_tts_audio_result|]. fold mp3.
    destruct (Spec.synthesis_ok W text mp3), (Spec.transcode_ok W mp3); cbn [andb].
    + split; [split; [discriminate | intros [?|?]; discriminate] | reflexivity].
    + split; [split; [intros _; now right | reflexivity] | congruence].
    + split; [split; [intros _; now left | reflexivity] | congruence].
    + split; [split; [intros _; now left | reflexivity] | congruence].
  - destruct (backend_turn_run W base cs sr s Hv Hs)
      as (e1 & e2 & e3 & e4 & s' & n & Hrun & _).
    fold messages reply mp3 in Hrun.
    eexists _, s'. split; [exact Hrun|].
    rewrite generate_tts_audio_result. fold mp3.
    unfold Backend.turn_response.
    destruct (Spec.synthesis_ok W reply mp3 && Spec.transcode_ok W mp3).
    + cbn [Py.truthy_opt]. rewrite audio_url_truthy. cbn. repeat split.
    + cbn. repeat split.
Qed.

(** C8, with a gTTS that cannot reach its service. *)
Lemma synthesis_failure_falls_back_witness :
  Spec.passes_validation "hello" = true
  /\ Spec.is_sentinel "hello" = false
  /\ fst (Backend.generate_tts_audio Demo.tts_down "Hi there" "CA1" Demo.fresh)
     = Ret (None, None)
  /\ fst (Backend.process_speech Demo.tts_down Demo.base "CA1" "hello" Demo.fresh)
     = Ret [ Say "Hi there" "alice"; Gather (process_action "CA1"); Hangup ].
Proof.
  assert (H1 : Spec.passes_validation "hello" = true) by reflexivity.
  assert (H2 : Spec.is_sentinel "hello" = false) by reflexivity.
  destruct (synthesis_failure_falls_back Demo.tts_down Demo.base "CA1" "hello"
              "Hi there" Demo.fresh H1 H2)
    as [(paths & Hp & _) (r & s' & Hrun & Hr)].
  split; [exact H1|]. split; [exact H2|]. split; [reflexivity|].
  rewrite Hrun. cbn [fst]. f_equal.
  vm_compute in Hr. exact (proj1 Hr).
Defined.

(** C9.  A transcript that is empty, or shorter than two characters once
    trimmed, ends the turn at input validation in both files:
    [process_speech] returns the [reprompt_no_speech] directive, appends one
    [no_speech_detected] event, invokes neither the completion service nor
    the synthesis engine, and leaves the store as it was. *)
Theorem no_speech_reprompts :
  forall (W : World) (base call_sid SpeechResult : string) (s : State),
    SpeechResult = EmptyString \/ Py.len (Py.strip SpeechResult) < 2 ->
    Spec.no_speech_outcome s (Backend.process_speech W base call_sid SpeechResult s)
    /\ Spec.no_speech_outcome s
         (VoiceCallEndpoint.process_speech W base call_sid SpeechResult s).
Proof.
  intros W base cs sr s H.
  assert (Hv : Spec.passes_validation sr = false).
  { unfold Spec.passes_validation. destruct H as [-> | H]; [reflexivity|].
    apply Nat.ltb_lt in H. rewrite H. apply andb_false_r. }
  split.
  - destruct (backend_no_speech_run W base cs sr s Hv) as (e & s' & Hrun & Heff & Hst).
    rewrite Hrun. eexists _, e. cbn [fst snd].
    split; [reflexivity|]. split; [reflexivity|].
    split; [eapply effect_events; eauto|]. split; [exact Hst|].
    split; [eapply effect_calls; eauto | eapply effect_store; eauto].
  - destruct (vce_no_speech_run W base cs sr s Hv) as (e & s' & Hrun & Heff & Hst).
    rewrite Hrun. eexists _, e. cbn [fst snd].
    split; [reflexivity|]. split; [reflexivity|].
    split; [eapply effect_events; eauto|]. split; [exact Hst|].
    split; [eapply effect_calls; eauto | eapply effect_store; eauto].
Qed.

(** C9, at the transcript " a ". *)
Lemma no_speech_reprompts_witness :
  (" a " = EmptyString \/ Py.len (Py.strip " a ") < 2)
  /\ Spec.no_speech_outcome Demo.fresh
       (Backend.process_speech Demo.happy Demo.base "CA1" " a " Demo.fresh)
  /\ Spec.no_speech_outcome Demo.fresh
       (VoiceCallEndpoint.process_speech Demo.happy Demo.base "CA1" " a " Demo.fresh).
Proof.
  assert (H : " a " = EmptyString \/ Py.len (Py.strip " a ") < 2)
    by (right; vm_compute; lia).
  split; [exact H|].
  exact (no_speech_reprompts Demo.happy Demo.base "CA1" " a " Demo.fresh H).
Defined.


(** C10 on a full disk: the entry is appended and returned all the same. *)
Example log_event_on_full_disk :
  exists e s',
    Backend.log_event Demo.disk_full "stt" (Some "CA1") (Some "stt_failure") [] None Demo.fresh
    = (Ret e, s')
    /\ logs s' = [e] /\ log_file s' = None.
Proof.
  eexists _, _. split; [apply backend_log_event_run|].
  split; reflexivity.
Qed.

(* ===================================================================== *)
(** * Further properties of the turn pipeline *)
(* ===================================================================== *)


(** X2.  A turn whose completion succeeds commits the exchange: in both
    files the history stored for the call identifier afterwards is the prior
    history, then the user message (the trimmed transcript), then the
    assistant message (the trimmed reply), cut to its last ten messages; the
    histories of the other call identifiers are untouched. *)
Theorem successful_turn_commits :
  forall (W : World) (base call_sid SpeechResult c : string) (s : State),
    Spec.passes_validation SpeechResult = true ->
    Spec.is_sentinel SpeechResult = false ->
    let said := {| role := user; content := Py.strip SpeechResult |} in
    let answered := {| role := assistant; content := Py.strip c |} in
    let prior := conversations_get (conversations s) call_sid in
    groq_create W (prior ++ [ said ]) = Completion c ->
    let after := snd (Backend.process_speech W base call_sid SpeechResult s) in
    let after_vce :=
      snd (VoiceCallEndpoint.process_speech W base call_sid SpeechResult s) in
    conversations after !! call_sid
    = Some (Py.last_n 10 (prior ++ [ said; answered ]))
    /\ conversations after_vce = conversations after
    /\ forall other, other <> call_sid ->
         conversations after !! other = conversations s !! other.
Proof.
  intros W base cs sr c s Hv Hs said answered prior Hc after after_vce.
  subst after after_vce.
  destruct (backend_turn_run W base cs sr s Hv Hs)
    as (e1 & e2 & e3 & e4 & s1 & n1 & Hrun1 & Heff1 & _).
  destruct (vce_turn_run W base cs sr s Hv)
    as (f1 & f2 & f3 & f4 & s2 & n2 & Hrun2 & Heff2 & _).
  fold prior said in Hrun1, Heff1, Hrun2, Heff2.
  rewrite Hrun1, Hrun2. cbn [snd].
  rewrite (effect_store _ _ _ _ _ _ Heff1), (effect_store _ _ _ _ _ _ Heff2).
  rewrite get_llm_response_run, Hc. cbn [fst Spec.store_after Spec.vce_store_after].
  fold answered. rewrite <- app_assoc. cbn [app].
  split; [apply lookup_insert_eq|]. split; [reflexivity|].
  intros other Hne. now apply lookup_insert_ne.
Qed.

(** X2, with the reply " Hi there " to the transcript "hello". *)
Lemma successful_turn_commits_witness :
  Spec.passes_validation "hello" = true
  /\ Spec.is_sentinel "hello" = false
  /\ conversations
       (snd (Backend.process_speech Demo.happy Demo.base "CA1" "hello"
               (snd (Backend.incoming_call Demo.happy "CA1" "+15550100" Demo.fresh))))
     !! "CA1"
     = Some [ {| role := system; content := Backend.SYSTEM_PROMPT |};
              {| role := user; content := "hello" |};
              {| role := assistant; content := "Hi there" |} ].
Proof.
  assert (H1 : Spec.passes_validation "hello" = true) by reflexivity.
  assert (H2 : Spec.is_sentinel "hello" = false) by reflexivity.
  split; [exact H1|]. split; [exact H2|].
  exact (proj1 (successful_turn_commits Demo.happy Demo.base "CA1" "hello"
                  " Hi there "
                  (snd (Backend.incoming_call Demo.happy "CA1" "+15550100" Demo.fresh))
                  H1 H2 eq_refl)).
Defined.

(* ===================================================================== *)
(** * Paths of the audio files *)
(* ===================================================================== *)

Section Paths.

Lemma append_cons (c : ascii) (a b : string) :
  String c a +:+ b = String c (a +:+ b).
Proof. reflexivity. Qed.

Lemma append_assoc (a b c : string) : (a +:+ b) +:+ c = a +:+ (b +:+ c).
Proof.
  induction a as [|x a IH]; [reflexivity|].
  now rewrite !append_cons, IH.
Qed.

Lemma contains_slash_cons (c : ascii) (s : string) :
  Py.contains "/" (String c s) = Ascii.eqb "/" c || Py.contains "/" s.
Proof.
  change (Py.contains "/" (String c s))
    with (Py.startswith "/" (String c s) || Py.contains "/" s).
  change (Py.startswith "/" (String c s))
    with (Ascii.eqb "/" c && Py.startswith EmptyString s).
  destruct s; cbn [Py.startswith]; now rewrite andb_true_r.
Qed.

(** A pattern without a slash matches at the head of [p ++ "/" ++ t] only
    when it matches at the head of [p]. *)
Lemma startswith_before_slash (q p t : string) :
  Py.contains "/" q = false ->
  Py.startswith q (p +:+ String "/" t) = Py.startswith q p.
Proof.
  revert p. induction q as [|a q IH]; intros p Hq; [now destruct p|].
  rewrite contains_slash_cons in Hq. apply orb_false_elim in Hq as [Ha Hq].
  destruct p as [|b p].
  - change (EmptyString +:+ String "/" t) with (String "/" t).
    cbn [Py.startswith]. now rewrite Ascii.eqb_sym, Ha.
  - rewrite append_cons. cbn [Py.startswith]. now rewrite IH.
Qed.

(** [replace] leaves a prefix without the pattern as it is, when a slash
    follows it and the pattern has none. *)
Lemma replace_from_prefix (old new p t : string) :
  Py.contains "/" old = false ->
  Py.contains old p = false ->
  Py.replace_from old new (p +:+ String "/" t) 0
  = p +:+ Py.replace_from old new (String "/" t) 0.
Proof.
  intros Ho. induction p as [|c p IH]; intros Hp; [reflexivity|].
  cbn [Py.contains] in Hp. apply orb_false_elim in Hp as [Hs Hp].
  rewrite append_cons. cbn [Py.replace_from]. rewrite <- append_cons.
  rewrite (startswith_before_slash old (String c p) t Ho), Hs.
  rewrite append_cons. now rewrite IH.
Qed.

Lemma contains_slash_app (a b : string) :
  Py.contains "/" (a +:+ b) = Py.contains "/" a || Py.contains "/" b.
Proof.
  induction a as [|c a IH].
  - change (EmptyString +:+ b) with b. now destruct b.
  - rewrite append_cons, !contains_slash_cons, IH. now rewrite orb_assoc.
Qed.

(** [replace] puts no slash where there was none. *)
Lemma replace_from_no_slash (old new s : string) (k : nat) :
  Py.contains "/" new = false ->
  Py.contains "/" s = false ->
  Py.contains "/" (Py.replace_from old new s k) = false.
Proof.
  intros Hn. revert k. induction s as [|c s IH]; intros k Hs; [reflexivity|].
  rewrite contains_slash_cons in Hs. apply orb_false_elim in Hs as [Hc Hs].
  cbn [Py.replace_from]. destruct k as [|k]; [| now apply IH].
  destruct (Py.startswith old (String c s)).
  - rewrite contains_slash_app, Hn. now apply IH.
  - rewrite contains_slash_cons, Hc. now apply IH.
Qed.

(** The base name of a path is what follows its last slash. *)
Lemma basename_from_no_slash (acc b : string) :
  Py.contains "/" b = false -> Py.basename_from acc b = acc +:+ b.
Proof.
  revert acc. induction b as [|c b IH]; intros acc Hb.
  - cbn [Py.basename_from]. induction acc as [|x acc IHa]; [reflexivity|].
    now rewrite append_cons, <- IHa.
  - rewrite contains_slash_cons in Hb. apply orb_false_elim in Hb as [Hc Hb].
    cbn [Py.basename_from]. rewrite Ascii.eqb_sym, Hc, (IH _ Hb).
    now rewrite append_assoc.
Qed.

Lemma basename_after_slash (p b : string) :
  Py.contains "/" b = false -> Py.basename (p +:+ String "/" b) = b.
Proof.
  intros Hb. unfold Py.basename. generalize EmptyString as acc.
  induction p as [|c p IH]; intros acc.
  - change (EmptyString +:+ String "/" b) with (String "/" b).
    cbn [Py.basename_from]. rewrite Ascii.eqb_refl.
    now rewrite basename_from_no_slash.
  - rewrite append_cons. cbn [Py.basename_from].
    destruct (Ascii.eqb c "/"); apply IH.
Qed.

Section Audio.
Variable W : World.

(** The WAV file of a synthesis, by its directory and its name. *)
Lemma wav_path_split call_sid hex :
  Py.contains ".mp3" (AUDIO_DIR W) = false ->
  Py.replace ".mp3" ".wav" (mp3_path_of W call_sid hex)
  = audio_path_of W (Py.replace ".mp3" ".wav"
                       ("tts_" +:+ call_sid +:+ "_" +:+ hex +:+ ".mp3")).
Proof.
  intros Hd. unfold Py.replace, mp3_path_of, audio_path_of.
  change ("/output/tts_" +:+ call_sid +:+ "_" +:+ hex +:+ ".mp3")
    with (String "/" ("output/" +:+ "tts_" +:+ call_sid +:+ "_" +:+ hex +:+ ".mp3")).
  rewrite replace_from_prefix by (reflexivity || assumption).
  reflexivity.
Qed.

Lemma wav_name_no_slash call_sid hex :
  Py.contains "/" call_sid = false ->
  Py.contains "/" hex = false ->
  Py.contains "/" (Py.replace ".mp3" ".wav"
                     ("tts_" +:+ call_sid +:+ "_" +:+ hex +:+ ".mp3")) = false.
Proof.
  intros Hc Hh. apply replace_from_no_slash; [reflexivity|].
  rewrite !contains_slash_app, Hc, Hh. reflexivity.
Qed.

Lemma wav_basename call_sid hex :
  Py.contains ".mp3" (AUDIO_DIR W) = false ->
  Py.contains "/" call_sid = false ->
  Py.contains "/" hex = false ->
  Py.basename (Py.replace ".mp3" ".wav" (mp3_path_of W call_sid hex))
  = Py.replace ".mp3" ".wav" ("tts_" +:+ call_sid +:+ "_" +:+ hex +:+ ".mp3").
Proof.
  intros Hd Hc Hh. rewrite wav_path_split by assumption.
  unfold audio_path_of.
  change ("/output/" +:+ ?x) with ("/output" +:+ String "/" x).
  rewrite <- append_assoc.
  apply basename_after_slash, wav_name_no_slash; assumption.
Qed.

End Audio.
End Paths.

(* ===================================================================== *)
(** * The chat handlers *)
(* ===================================================================== *)

Section Chat.
Variable W : World.






End Chat.

(* ===================================================================== *)
(** * The credential handlers *)
(* ===================================================================== *)

Section Credentials.
Variable W : World.
Variable T : Twilio.

Lemma validate_twilio_credentials_spec sid token phone :
  fst (Backend.validate_twilio_credentials sid token phone) = true
  <-> Props.well_formed sid token phone.
Proof.
  unfold Backend.validate_twilio_credentials, Props.well_formed.
  rewrite <- !startswith_spec.
  destruct (Py.startswith "AC" sid); cbn [negb orb].
  2:{ split; [discriminate | intros (H & _); discriminate]. }
  destruct (Nat.ltb_spec (Py.len sid) 30); cbn [fst].
  { split; [discriminate | intros (_ & ? & _); lia]. }
  destruct (Nat.ltb_spec (Py.len token) 30); cbn [fst].
  { split; [discriminate | intros (_ & _ & ? & _); lia]. }
  destruct (Py.startswith "+" phone); cbn [negb orb].
  2:{ split; [discriminate | intros (_ & _ & _ & ? & _); discriminate]. }
  destruct (Nat.ltb_spec (Py.len phone) 10); cbn [fst].
  { split; [discriminate | intros (_ & _ & _ & _ & ?); lia]. }
  split; [intros _; repeat split; assumption | reflexivity].
Qed.

Lemma validate_twilio_credentials_message sid token phone :
  is_Some (snd (Backend.validate_twilio_credentials sid token phone))
  <-> fst (Backend.validate_twilio_credentials sid token phone) = false.
Proof.
  unfold Backend.validate_twilio_credentials.
  repeat match goal with |- context [if ?b then _ else _] => destruct b end;
    cbn; split; intros H; try reflexivity; try discriminate; eauto;
    destruct H; discriminate.
Qed.









End Credentials.

Section Reading.



End Reading.

(* ===================================================================== *)
(** * The window over a run of turns *)
(* ===================================================================== *)

Section Window.

(** Cutting to the window before appending does not change what the window
    holds afterwards. *)
Lemma last_n_app_last_n {A} (n : nat) (l x : list A) :
  Py.last_n n (Py.last_n n l ++ x) = Py.last_n n (l ++ x).
Proof.
  destruct n as [|n]; [reflexivity|]. unfold Py.last_n.
  rewrite <- (drop_app_le l x (length l - S n)) by lia.
  rewrite drop_drop. f_equal. rewrite length_drop, !length_app. lia.
Qed.

Lemma no_system_last_n n h : Props.no_system h -> Props.no_system (Py.last_n n h).
Proof.
  unfold Props.no_system. intros H.
  destruct (last_n_suffix n h) as [k Hk].
  rewrite Hk in H. now apply Forall_app in H as [_ H].
Qed.

(** The window over the persona message and [2 * n] further messages. *)
Lemma window_after_intro persona n msgs :
  length msgs = 2 * n ->
  Props.no_system msgs ->
  Props.window_after persona n
    (Some (Py.last_n 10 ({| role := system; content := persona |} :: msgs))).
Proof.
  intros Hl Hn. exists msgs. split; [exact Hl|]. split; [exact Hn|].
  split; [reflexivity|]. split.
  - intros Hle. f_equal. unfold Py.last_n.
    replace (length (_ :: msgs) - 10) with 0 by (cbn [length]; lia).
    reflexivity.
  - intros Hge. rewrite last_n_drops_head by (cbn [length]; lia).
    split; [reflexivity|]. split; [now apply no_system_last_n|].
    rewrite last_n_length by lia. lia.
Qed.

Variable cs : string.

(** What one turn does to the stored history of its call. *)
Lemma backend_turn_store W base sr s :
  let h := conversations_get (conversations s) cs in
  let s' := snd (Backend.process_speech W base cs sr s) in
  if Props.turn_commits W cs sr s
  then exists c,
         conversations s'
         = <[cs := Py.last_n 10 (h ++ [ {| role := user; content := Py.strip sr |};
                                         {| role := assistant; content := c |} ])]>
             (conversations s)
  else conversations s' = conversations s.
Proof.
  intros h s'. subst s'. unfold Props.turn_commits.
  destruct (Spec.passes_validation sr) eqn:Hv; cbn [andb].
  2:{ destruct (backend_no_speech_run W base cs sr s Hv) as (e & s' & Hrun & Heff & _).
      rewrite Hrun. exact (effect_store _ _ _ _ _ _ Heff). }
  destruct (Spec.is_sentinel sr) eqn:Hs; cbn [andb negb].
  { destruct (backend_stt_failure_run W base cs sr s Hs) as (e & s' & Hrun & Heff & _).
    rewrite Hrun. exact (effect_store _ _ _ _ _ _ Heff). }
  destruct (backend_turn_run W base cs sr s Hv Hs)
    as (e1 & e2 & e3 & e4 & s' & n & Hrun & Heff & _).
  rewrite Hrun. cbn [snd]. rewrite (effect_store _ _ _ _ _ _ Heff).
  rewrite get_llm_response_run. cbn [fst]. fold h.
  destruct (groq_create W _) as [c | t m]; cbn [Spec.store_after].
  - exists (Py.strip c). now rewrite <- app_assoc.
  - now destruct (Backend.timeout_related (Py.lower m)).
Qed.

Lemma vce_turn_store W base sr s :
  let h := conversations_get (conversations s) cs in
  let s' := snd (VoiceCallEndpoint.process_speech W base cs sr s) in
  if Props.vce_turn_commits W cs sr s
  then exists c,
         conversations s'
         = <[cs := Py.last_n 10 (h ++ [ {| role := user; content := Py.strip sr |};
                                         {| role := assistant; content := c |} ])]>
             (conversations s)
  else conversations s' = conversations s.
Proof.
  intros h s'. subst s'. unfold Props.vce_turn_commits.
  destruct (Spec.passes_validation sr) eqn:Hv; cbn [andb].
  2:{ destruct (vce_no_speech_run W base cs sr s Hv) as (e & s' & Hrun & Heff & _).
      rewrite Hrun. exact (effect_store _ _ _ _ _ _ Heff). }
  destruct (vce_turn_run W base cs sr s Hv)
    as (e1 & e2 & e3 & e4 & s' & n & Hrun & Heff & _).
  rewrite Hrun. cbn [snd]. rewrite (effect_store _ _ _ _ _ _ Heff). fold h.
  destruct (groq_create W _) as [c | t m]; cbn [Spec.vce_store_after].
  - exists (Py.strip c). now rewrite <- app_assoc.
  - reflexivity.
Qed.

(** A run of turns on a store that holds a window over the persona message
    and [2 * k] further messages leaves such a window, grown by the
    committed exchanges. *)
Lemma run_turns_window
    (process : World -> string -> string -> string -> M Response)
    (commits : World -> string -> string -> State -> bool) (persona : string) :
  (forall W base sr s,
      let h := conversations_get (conversations s) cs in
      let s' := snd (process W base cs sr s) in
      if commits W cs sr s
      then exists c,
             conversations s'
             = <[cs := Py.last_n 10 (h ++ [ {| role := user; content := Py.strip sr |};
                                             {| role := assistant; content := c |} ])]>
                 (conversations s)
      else conversations s' = conversations s) ->
  forall turns base s k msgs,
    length msgs = 2 * k ->
    Props.no_system msgs ->
    conversations s !! cs
    = Some (Py.last_n 10 ({| role := system; content := persona |} :: msgs)) ->
    let out := Props.run_turns process commits turns base cs s in
    exists msgs',
      length msgs' = 2 * (k + snd out)
      /\ Props.no_system msgs'
      /\ conversations (fst out) !! cs
         = Some (Py.last_n 10 ({| role := system; content := persona |} :: msgs')).
Proof.
  intros Hstep turns base. induction turns as [|[W sr] turns IH];
    intros s k msgs Hl Hn Hc out; subst out.
  - exists msgs. cbn. rewrite Nat.add_0_r. auto.
  - cbn [Props.run_turns].
    specialize (Hstep W base sr s). cbn zeta in Hstep.
    destruct (Props.run_turns process commits turns base cs
                (snd (process W base cs sr s))) as [s' n] eqn:Hrun.
    cbn [fst snd].
    destruct (commits W cs sr s).
    + destruct Hstep as [c Hstore].
      unfold conversations_get in Hstore. rewrite Hc in Hstore.
      cbn [default from_option id] in Hstore.
      rewrite last_n_app_last_n in Hstore.
      specialize (IH (snd (process W base cs sr s)) (S k)
                    (msgs ++ [ {| role := user; content := Py.strip sr |};
                               {| role := assistant; content := c |} ])).
      rewrite Hrun in IH. cbn [fst snd] in IH.
      destruct IH as (msgs' & Hl' & Hn' & Hc').
      * rewrite length_app. cbn [length]. lia.
      * apply Forall_app. split; [exact Hn|].
        repeat constructor; discriminate.
      * rewrite Hstore, lookup_insert_eq. reflexivity.
      * exists msgs'. split; [lia | auto].
    + specialize (IH (snd (process W base cs sr s)) k msgs Hl Hn).
      rewrite Hrun in IH. cbn [fst snd] in IH.
      destruct IH as (msgs' & Hl' & Hn' & Hc'); [now rewrite Hstep|].
      exists msgs'. split; [lia | auto].
Qed.

End Window.

(* ===================================================================== *)
(** * Relations that every step of a handler respects *)
(* ===================================================================== *)

Create HintDb relates.

Section Invariants.
Variable W : World.
Variable call_sid : string.
Variable R : State -> State -> Prop.
Hypothesis R_stable : Props.stable W call_sid R.

Lemma relates_ret {A} (a : A) : Props.relates R (ret a).
Proof. intros s. apply (Props.stable_refl _ _ _ R_stable). Qed.

Lemma relates_raise {A} (e : Exn) : Props.relates R (@raise A e).
Proof. intros s. apply (Props.stable_refl _ _ _ R_stable). Qed.

Lemma relates_bind {A B} (c : M A) (k : A -> M B) :
  Props.relates R c -> (forall a, Props.relates R (k a)) ->
  Props.relates R (bind c k).
Proof.
  intros Hc Hk s. unfold bind. specialize (Hc s).
  destruct (c s) as [[a | e] s1]; [| exact Hc].
  eapply (Props.stable_trans _ _ _ R_stable); [exact Hc | apply Hk].
Qed.

Lemma relates_try_except {A} (c : M A) (h : Exn -> M A) :
  Props.relates R c -> (forall e, Props.relates R (h e)) ->
  Props.relates R (try_except c h).
Proof.
  intros Hc Hh s. unfold try_except. specialize (Hc s).
  destruct (c s) as [[a | e] s1]; [exact Hc|].
  eapply (Props.stable_trans _ _ _ R_stable); [exact Hc | apply Hh].
Qed.

Lemma relates_datetime_now : Props.relates R (datetime_now W).
Proof. intros s. apply (Props.stable_ticks _ _ _ R_stable). Qed.

Lemma relates_urandom_4_hex : Props.relates R (urandom_4_hex W).
Proof. intros s. apply (Props.stable_rng _ _ _ R_stable). Qed.

Lemma relates_get_conversations : Props.relates R get_conversations.
Proof. intros s. apply (Props.stable_refl _ _ _ R_stable). Qed.

Lemma relates_set_conversation h : Props.relates R (set_conversation call_sid h).
Proof. intros s. apply (Props.stable_store _ _ _ R_stable). Qed.

Lemma relates_record_call c : Props.relates R (record_call c).
Proof. intros s. apply (Props.stable_trace _ _ _ R_stable). Qed.

Lemma relates_backend_log_event et cs st d dur :
  Props.relates R (Backend.log_event W et cs st d dur).
Proof.
  intros s. rewrite backend_log_event_run. apply (Props.stable_logged _ _ _ R_stable).
Qed.

Lemma relates_vce_log_event et cs st d dur :
  Props.relates R (VoiceCallEndpoint.log_event W et cs st d dur).
Proof.
  intros s. rewrite vce_log_event_run. apply (Props.stable_logged _ _ _ R_stable).
Qed.

Hint Resolve relates_ret relates_raise relates_bind relates_try_except
  relates_datetime_now relates_urandom_4_hex relates_get_conversations
  relates_set_conversation relates_record_call
  relates_backend_log_event relates_vce_log_event : relates.
Hint Extern 1 (Props.relates _ (if ?b then _ else _)) => destruct b : relates.
Hint Extern 1 (Props.relates _ (match ?x with _ => _ end)) => destruct x : relates.
Hint Extern 4 (Props.relates _ _) => progress cbv zeta : relates.

Lemma relates_seconds_since t : Props.relates R (seconds_since W t).
Proof. unfold seconds_since. eauto with relates. Qed.

Lemma relates_attempt o : Props.relates R (attempt o).
Proof. unfold attempt. eauto with relates. Qed.

Lemma relates_groq_chat_completion messages :
  Props.relates R (groq_chat_completion W messages).
Proof. unfold groq_chat_completion. eauto with relates. Qed.

Lemma relates_fetch_account_step T sid token :
  Props.relates R (fetch_account_step T sid token).
Proof. unfold fetch_account_step. eauto with relates. Qed.

Lemma relates_list_numbers_step T sid token phone :
  Props.relates R (list_numbers_step T sid token phone).
Proof. unfold list_numbers_step. eauto with relates. Qed.

Hint Resolve relates_seconds_since relates_attempt relates_groq_chat_completion
  relates_fetch_account_step relates_list_numbers_step : relates.

Lemma relates_get_llm_response messages :
  Props.relates R (Backend.get_llm_response W messages).
Proof. unfold Backend.get_llm_response. eauto 10 with relates. Qed.

Lemma relates_generate_tts_audio text :
  Props.relates R (Backend.generate_tts_audio W text call_sid).
Proof. unfold Backend.generate_tts_audio. eauto 20 with relates. Qed.

Hint Resolve relates_get_llm_response relates_generate_tts_audio : relates.

Lemma relates_backend_llm_step turn_num messages :
  Props.relates R (Backend.llm_step W call_sid turn_num messages).
Proof. unfold Backend.llm_step, Backend.commit. eauto 20 with relates. Qed.

Lemma relates_backend_tts_step base turn_num text :
  Props.relates R (Backend.tts_step W base call_sid turn_num text).
Proof. unfold Backend.tts_step. eauto 20 with relates. Qed.

Lemma relates_vce_llm_step messages :
  Props.relates R (VoiceCallEndpoint.llm_step W call_sid messages).
Proof.
  unfold VoiceCallEndpoint.llm_step, VoiceCallEndpoint.commit.
  eauto 20 with relates.
Qed.

Lemma relates_vce_tts_step base turn_num text :
  Props.relates R (VoiceCallEndpoint.tts_step W base call_sid turn_num text).
Proof. unfold VoiceCallEndpoint.tts_step. eauto 60 with relates. Qed.

Hint Resolve relates_backend_llm_step relates_backend_tts_step
  relates_vce_llm_step relates_vce_tts_step : relates.

Lemma relates_backend_incoming_call from :
  Props.relates R (Backend.incoming_call W call_sid from).
Proof. unfold Backend.incoming_call. eauto 10 with relates. Qed.

Lemma relates_backend_process_speech base sr :
  Props.relates R (Backend.process_speech W base call_sid sr).
Proof. unfold Backend.process_speech. eauto 40 with relates. Qed.

Lemma relates_backend_chat_endpoint message :
  Props.relates R (Backend.chat_endpoint W message).
Proof. unfold Backend.chat_endpoint. eauto 20 with relates. Qed.

Lemma relates_backend_chat_endpoint_get message :
  Props.relates R (Backend.chat_endpoint_get W message).
Proof. unfold Backend.chat_endpoint_get. eauto 20 with relates. Qed.

Lemma relates_backend_set_twilio_credentials T sid token phone creds :
  Props.relates R (Backend.set_twilio_credentials W T sid token phone creds).
Proof. unfold Backend.set_twilio_credentials. eauto 30 with relates. Qed.

Lemma relates_vce_incoming_call from :
  Props.relates R (VoiceCallEndpoint.incoming_call call_sid from).
Proof. unfold VoiceCallEndpoint.incoming_call. eauto 10 with relates. Qed.

Lemma relates_vce_process_speech base sr :
  Props.relates R (VoiceCallEndpoint.process_speech W base call_sid sr).
Proof. unfold VoiceCallEndpoint.process_speech. eauto 40 with relates. Qed.

Lemma relates_vce_chat_endpoint message :
  Props.relates R (VoiceCallEndpoint.chat_endpoint W message).
Proof. unfold VoiceCallEndpoint.chat_endpoint. eauto 20 with relates. Qed.

Lemma relates_vce_chat_endpoint_get message :
  Props.relates R (VoiceCallEndpoint.chat_endpoint_get W message).
Proof. unfold VoiceCallEndpoint.chat_endpoint_get. eauto 20 with relates. Qed.

Lemma relates_vce_set_twilio_credentials T sid token phone creds :
  Props.relates R (VoiceCallEndpoint.set_twilio_credentials W T sid token phone creds).
Proof. unfold VoiceCallEndpoint.set_twilio_credentials. eauto 30 with relates. Qed.

End Invariants.

Section Stable.
Variable W : World.
Variable call_sid : string.

Lemma log_grows_stable : Props.stable W call_sid Props.log_grows.
Proof.
  unfold Props.log_grows. split; intros; cbn; try reflexivity.
  - etrans; eassumption.
  - now apply prefix_app_r.
Qed.

Lemma others_untouched_stable :
  Props.stable W call_sid (Props.others_untouched call_sid).
Proof.
  unfold Props.others_untouched. split; intros; cbn; try reflexivity.
  - match goal with
    | Hab : forall k, _ -> conversations ?b !! k = conversations ?a !! k,
      Hbc : forall k, _ -> conversations ?c !! k = conversations ?b !! k |- _ =>
        now rewrite Hbc, Hab
    end.
  - now apply lookup_insert_ne.
Qed.

Lemma synced_logged : Props.disk_works W -> forall e s, Props.synced (logged W e s).
Proof.
  intros Hdisk e s. unfold Props.synced, logged, file_after. cbn.
  now rewrite Hdisk.
Qed.

Lemma synced_stable :
  Props.disk_works W ->
  Props.stable W call_sid (fun s s' => Props.synced s -> Props.synced s').
Proof.
  intros Hdisk. split; intros; cbn; auto.
  now apply synced_logged.
Qed.

End Stable.

Section WriteThrough.
Variable W : World.
Variable P : State -> Prop.
Hypothesis P_logged : forall e s, P (logged W e s).

Lemma settles_bind_keeps {A B} (c : M A) (k : A -> M B) :
  Props.settles P c -> (forall a, Props.keeps P (k a)) ->
  Props.settles P (bind c k).
Proof.
  intros Hc Hk s. unfold bind. specialize (Hc s).
  destruct (c s) as [[a | e] s1]; [| exact Hc].
  now apply Hk.
Qed.

Lemma settles_bind_returns {A B} (c : M A) (k : A -> M B) :
  Props.returns c -> (forall a, Props.settles P (k a)) ->
  Props.settles P (bind c k).
Proof.
  intros Hc Hk s. unfold bind. destruct (Hc s) as [a Ha].
  destruct (c s) as [[a' | e] s1]; [apply Hk | discriminate].
Qed.

Lemma settles_try_except {A} (c : M A) (h : Exn -> M A) :
  Props.settles_on_return P c -> (forall e, Props.settles P (h e)) ->
  Props.settles P (try_except c h).
Proof.
  intros Hc Hh s. unfold try_except. specialize (Hc s).
  destruct (c s) as [[a | e] s1]; [exact Hc | apply Hh].
Qed.

Lemma settles_on_return_bind {A B} (c : M A) (k : A -> M B) :
  (forall a, Props.settles_on_return P (k a)) ->
  Props.settles_on_return P (bind c k).
Proof.
  intros Hk s. unfold bind. destruct (c s) as [[a | e] s1]; [apply Hk | exact I].
Qed.

Lemma settles_on_return_settles {A} (c : M A) :
  Props.settles P c -> Props.settles_on_return P c.
Proof.
  intros Hc s. specialize (Hc s). destruct (c s) as [[a | e] s1]; [exact Hc | exact I].
Qed.

Lemma keeps_ret {A} (a : A) : Props.keeps P (ret a).
Proof. intros s H. exact H. Qed.

Lemma settles_backend_log_event et cs st d dur :
  Props.settles P (Backend.log_event W et cs st d dur).
Proof. intros s. rewrite backend_log_event_run. apply P_logged. Qed.

Lemma settles_vce_log_event et cs st d dur :
  Props.settles P (VoiceCallEndpoint.log_event W et cs st d dur).
Proof. intros s. rewrite vce_log_event_run. apply P_logged. Qed.

Lemma returns_datetime_now : Props.returns (datetime_now W).
Proof. intros s. now eexists. Qed.

Lemma returns_seconds_since t : Props.returns (seconds_since W t).
Proof. intros s. now eexists. Qed.

Lemma returns_get_conversations : Props.returns get_conversations.
Proof. intros s. now eexists. Qed.

Lemma returns_set_conversation k h : Props.returns (set_conversation k h).
Proof. intros s. now eexists. Qed.

Lemma returns_backend_log_event et cs st d dur :
  Props.returns (Backend.log_event W et cs st d dur).
Proof. intros s. rewrite backend_log_event_run. now eexists. Qed.

Lemma returns_vce_log_event et cs st d dur :
  Props.returns (VoiceCallEndpoint.log_event W et cs st d dur).
Proof. intros s. rewrite vce_log_event_run. now eexists. Qed.

Lemma returns_backend_llm_step cs t m : Props.returns (Backend.llm_step W cs t m).
Proof.
  intros s. destruct (backend_llm_step_run W cs t m s) as (e & s' & Hrun & _).
  rewrite Hrun. now eexists.
Qed.

Lemma returns_backend_tts_step b cs t a : Props.returns (Backend.tts_step W b cs t a).
Proof.
  intros s. destruct (backend_tts_step_run W b cs t a s) as (e & s' & n & Hrun & _).
  rewrite Hrun. now eexists.
Qed.

Lemma returns_vce_llm_step cs m : Props.returns (VoiceCallEndpoint.llm_step W cs m).
Proof.
  intros s. destruct (vce_llm_step_run W cs m s) as (s' & Hrun & _).
  rewrite Hrun. now eexists.
Qed.

Lemma returns_vce_tts_step b cs t a :
  Props.returns (VoiceCallEndpoint.tts_step W b cs t a).
Proof.
  intros s. destruct (vce_tts_step_run W b cs t a s) as (e & s' & n & Hrun & _).
  rewrite Hrun. now eexists.
Qed.

Create HintDb settles.
Hint Resolve settles_bind_keeps settles_try_except settles_on_return_bind
  settles_on_return_settles keeps_ret
  settles_backend_log_event settles_vce_log_event : settles.
Hint Resolve settles_bind_returns | 2 : settles.
Hint Resolve returns_datetime_now returns_seconds_since returns_get_conversations
  returns_set_conversation returns_backend_log_event returns_vce_log_event
  returns_backend_llm_step returns_backend_tts_step
  returns_vce_llm_step returns_vce_tts_step : settles.
Hint Extern 1 (Props.settles _ (if ?b then _ else _)) => destruct b : settles.
Hint Extern 1 (Props.settles _ (match ?x with _ => _ end)) => destruct x : settles.
Hint Extern 1 (Props.settles_on_return _ (if ?b then _ else _)) => destruct b : settles.
Hint Extern 4 (Props.settles _ _) => progress cbv zeta : settles.
Hint Extern 4 (Props.settles_on_return _ _) => progress cbv zeta : settles.

Lemma settles_backend_incoming_call cs from :
  Props.settles P (Backend.incoming_call W cs from).
Proof. unfold Backend.incoming_call. eauto 10 with settles. Qed.

Lemma settles_backend_process_speech base cs sr :
  Props.settles P (Backend.process_speech W base cs sr).
Proof. unfold Backend.process_speech. eauto 40 with settles. Qed.

Lemma settles_backend_chat_endpoint message :
  Props.settles P (Backend.chat_endpoint W message).
Proof. unfold Backend.chat_endpoint. eauto 20 with settles. Qed.

Lemma settles_backend_chat_endpoint_get message :
  Props.settles P (Backend.chat_endpoint_get W message).
Proof. unfold Backend.chat_endpoint_get. eauto 20 with settles. Qed.

Lemma settles_vce_process_speech base cs sr :
  Props.settles P (VoiceCallEndpoint.process_speech W base cs sr).
Proof. unfold VoiceCallEndpoint.process_speech. eauto 40 with settles. Qed.

Lemma settles_vce_chat_endpoint message :
  Props.settles P (VoiceCallEndpoint.chat_endpoint W message).
Proof. unfold VoiceCallEndpoint.chat_endpoint. eauto 20 with settles. Qed.

Lemma settles_vce_chat_endpoint_get message :
  Props.settles P (VoiceCallEndpoint.chat_endpoint_get W message).
Proof. unfold VoiceCallEndpoint.chat_endpoint_get. eauto 20 with settles. Qed.

End WriteThrough.

(* ===================================================================== *)
(** * Further properties: the chat, credential and audio handlers *)
(* ===================================================================== *)



(** X5.  [validate_twilio_credentials] decides the three format checks, and
    gives a message exactly when it rejects. *)
Theorem validate_twilio_credentials_decides :
  forall sid token phone : string,
    let verdict := Backend.validate_twilio_credentials sid token phone in
    (fst verdict = true <-> Props.well_formed sid token phone)
    /\ (is_Some (snd verdict) <-> fst verdict = false).
Proof.
  intros sid token phone. split.
  - apply validate_twilio_credentials_spec.
  - apply validate_twilio_credentials_message.
Qed.


(** X7.  What [get_twilio_credentials] reports, in both files.  The phone
    number and the preview of the account SID are shown exactly when the
    dictionary was set from the UI and holds three non-empty values;
    credentials that come from the environment alone are reported as not
    configured.  The field [configured] carries the value of the [and]
    chain: it is truthy exactly in that case, and it is never the boolean
    [True] (it is the phone number then). *)
Theorem get_twilio_credentials_reports :
  forall creds : Credentials,
    let configured :=
      ui_set creds && Py.truthy (account_sid creds)
      && Py.truthy (auth_token creds) && Py.truthy (phone_number creds) in
    exists v,
      Backend.get_twilio_credentials creds
      = [ ("status", JStr "success");
          ("configured", v);
          ("phone_number", JStr (if configured then phone_number creds else EmptyString));
          ("account_sid_preview",
           JStr (if configured
                 then Py.slice_to 10 (account_sid creds) +:+ "..." else EmptyString)) ]
      /\ truthy_val v = configured
      /\ v <> JBool true
      /\ (configured = true -> v = JStr (phone_number creds))
      /\ VoiceCallEndpoint.get_twilio_credentials creds
         = Backend.get_twilio_credentials creds.
Proof.
  intros [sid token phone ui].
  unfold VoiceCallEndpoint.get_twilio_credentials,
    Backend.get_twilio_credentials, py_and.
  cbn [ui_set account_sid auth_token phone_number].
  destruct ui, (Py.truthy sid) eqn:Hs, (Py.truthy token) eqn:Ht,
    (Py.truthy phone) eqn:Hp;
    repeat (cbn [truthy_val andb]; rewrite ?Hs, ?Ht, ?Hp);
    (eexists; split; [reflexivity|]);
    cbn [truthy_val]; rewrite ?Hs, ?Ht, ?Hp;
    (split; [reflexivity|]); (split; [discriminate|]);
    (split; [first [reflexivity | discriminate] | reflexivity]).
Qed.

(** X8.  [get_twilio_credentials] never shows the auth token: two
    dictionaries that differ in their (non-empty) tokens only get the same
    response, in both files. *)
Theorem get_twilio_credentials_hides_token :
  forall (sid token token' phone : string) (ui : bool),
    Py.truthy token = true ->
    Py.truthy token' = true ->
    let held := {| account_sid := sid; auth_token := token;
                   phone_number := phone; ui_set := ui |} in
    let held' := {| account_sid := sid; auth_token := token';
                    phone_number := phone; ui_set := ui |} in
    Backend.get_twilio_credentials held = Backend.get_twilio_credentials held'
    /\ VoiceCallEndpoint.get_twilio_credentials held
       = VoiceCallEndpoint.get_twilio_credentials held'.
Proof.
  intros sid token token' phone ui Ht Ht' held held'. subst held held'.
  unfold VoiceCallEndpoint.get_twilio_credentials,
    Backend.get_twilio_credentials, py_and.
  cbn [ui_set account_sid auth_token phone_number].
  destruct ui, (Py.truthy sid) eqn:Hs;
    repeat (cbn [truthy_val]; rewrite ?Hs, ?Ht, ?Ht');
    split; reflexivity.
Qed.

(** X8, with two tokens of the same account. *)
Lemma get_twilio_credentials_hides_token_witness :
  Backend.get_twilio_credentials
    {| account_sid := Sample.sid; auth_token := Sample.token;
       phone_number := Sample.phone; ui_set := true |}
  = Backend.get_twilio_credentials
      {| account_sid := Sample.sid; auth_token := "fedcba9876543210fedcba9876543210";
         phone_number := Sample.phone; ui_set := true |}
  /\ VoiceCallEndpoint.get_twilio_credentials
       {| account_sid := Sample.sid; auth_token := Sample.token;
          phone_number := Sample.phone; ui_set := true |}
     = VoiceCallEndpoint.get_twilio_credentials
         {| account_sid := Sample.sid;
            auth_token := "fedcba9876543210fedcba9876543210";
            phone_number := Sample.phone; ui_set := true |}.
Proof.
  exact (get_twilio_credentials_hides_token Sample.sid Sample.token
           "fedcba9876543210fedcba9876543210" Sample.phone true eq_refl eq_refl).
Defined.


(** X10.  The file that [serve_audio] looks up is the file the synthesis
    wrote.  When the audio directory holds no [".mp3"] and neither the call
    identifier nor the random suffix holds a slash, the name that the turn
    puts in the audio URL (the base name of the WAV path) has no slash, and
    [serve_audio], given that name, looks at the very path the transcoder
    wrote to, in both files. *)
Theorem serve_audio_finds_the_generated_file :
  forall (W : World) (call_sid hex : string) (exists_ : string -> bool),
    Py.contains ".mp3" (AUDIO_DIR W) = false ->
    Py.contains "/" call_sid = false ->
    Py.contains "/" hex = false ->
    let wav_path := Py.replace ".mp3" ".wav" (mp3_path_of W call_sid hex) in
    let filename := Py.basename wav_path in
    Py.contains "/" filename = false
    /\ audio_path_of W filename = wav_path
    /\ Backend.serve_audio W exists_ filename
       = (if exists_ wav_path then FileResponse wav_path "audio/wav"
          else StatusOnly 404)
    /\ VoiceCallEndpoint.serve_audio W exists_ filename
       = Backend.serve_audio W exists_ filename.
Proof.
  intros W cs hex exists_ Hd Hc Hh wav_path filename.
  assert (Hname : filename
                  = Py.replace ".mp3" ".wav" ("tts_" +:+ cs +:+ "_" +:+ hex +:+ ".mp3"))
    by (apply wav_basename; assumption).
  assert (Hpath : audio_path_of W filename = wav_path)
    by (rewrite Hname; symmetry; apply wav_path_split; assumption).
  split; [rewrite Hname; apply wav_name_no_slash; assumption|].
  split; [exact Hpath|].
  unfold VoiceCallEndpoint.serve_audio, Backend.serve_audio.
  rewrite Hpath. split; reflexivity.
Qed.

(** X10, for the call "CA1" in the directory "audio_files". *)
Lemma serve_audio_finds_the_generated_file_witness :
  Py.basename (Py.replace ".mp3" ".wav" (mp3_path_of Demo.happy "CA1" "0a1b2c3d"))
  = "tts_CA1_0a1b2c3d.wav"
  /\ Backend.serve_audio Demo.happy
       (String.eqb "audio_files/output/tts_CA1_0a1b2c3d.wav")
       "tts_CA1_0a1b2c3d.wav"
     = FileResponse "audio_files/output/tts_CA1_0a1b2c3d.wav" "audio/wav".
Proof.
  split; [reflexivity|].
  exact (proj1 (proj2 (proj2
           (serve_audio_finds_the_generated_file Demo.happy "CA1" "0a1b2c3d"
              (String.eqb "audio_files/output/tts_CA1_0a1b2c3d.wav")
              eq_refl eq_refl eq_refl)))).
Defined.

(* ===================================================================== *)
(** * Further properties: a call over several turns *)
(* ===================================================================== *)

(** X11.  A turn calls each collaborator at most once, and in order: when
    the transcript goes through (it passes input validation and, in
    [backend/main.py], is no sentinel) the turn makes one request to the
    completion service, which carries the stored history followed by the
    trimmed transcript, and then one request to the synthesis; otherwise it
    calls no collaborator. *)
Theorem turn_calls_each_collaborator_once :
  forall (W : World) (base call_sid SpeechResult : string) (s : State),
    let request := conversations_get (conversations s) call_sid
                   ++ [ {| role := user; content := Py.strip SpeechResult |} ] in
    (let s' := snd (Backend.process_speech W base call_sid SpeechResult s) in
     if Spec.passes_validation SpeechResult && negb (Spec.is_sentinel SpeechResult)
     then exists reply, Spec.calls_since s s' = [ CallGroq request; CallGTTS reply ]
     else Spec.calls_since s s' = [])
    /\ (let s' := snd (VoiceCallEndpoint.process_speech W base call_sid SpeechResult s) in
        if Spec.passes_validation SpeechResult
        then exists reply, Spec.calls_since s s' = [ CallGroq request; CallGTTS reply ]
        else Spec.calls_since s s' = []).
Proof.
  intros W base cs sr s request. split.
  - destruct (Spec.passes_validation sr) eqn:Hv; cbn [andb].
    + destruct (Spec.is_sentinel sr) eqn:Hs; cbn [negb].
      * destruct (backend_stt_failure_run W base cs sr s Hs)
          as (e & s' & Hrun & Heff & _).
        rewrite Hrun. exact (effect_calls _ _ _ _ _ _ Heff).
      * destruct (backend_turn_run W base cs sr s Hv Hs)
          as (e1 & e2 & e3 & e4 & s' & n & Hrun & Heff & _).
        rewrite Hrun. eexists. exact (effect_calls _ _ _ _ _ _ Heff).
    + destruct (backend_no_speech_run W base cs sr s Hv) as (e & s' & Hrun & Heff & _).
      rewrite Hrun. exact (effect_calls _ _ _ _ _ _ Heff).
  - destruct (Spec.passes_validation sr) eqn:Hv.
    + destruct (vce_turn_run W base cs sr s Hv)
        as (e1 & e2 & e3 & e4 & s' & n & Hrun & Heff & _).
      rewrite Hrun. eexists. exact (effect_calls _ _ _ _ _ _ Heff).
    + destruct (vce_no_speech_run W base cs sr s Hv) as (e & s' & Hrun & Heff & _).
      rewrite Hrun. exact (effect_calls _ _ _ _ _ _ Heff).
Qed.


(** X13.  The persona leaves the window.  Take any state, let
    [incoming_call] start the call, and run any turns of that call, in any
    worlds; let [n] of them commit an exchange.  The stored history is then
    the last ten of the persona message followed by the [2 * n] messages of
    the exchanges: up to four exchanges it is all of them, persona first;
    from the fifth on it is ten messages of the exchanges and the persona
    message is gone.  A call identifier used before starts afresh.  This
    holds in both files. *)
Theorem persona_leaves_the_window :
  forall (W0 : World) (call_sid From : string) (turns : list (World * string))
         (base : string) (s : State),
    (let started := snd (Backend.incoming_call W0 call_sid From s) in
     let out := Props.run_turns Backend.process_speech Props.turn_commits
                  turns base call_sid started in
     Props.window_after Backend.SYSTEM_PROMPT (snd out)
       (conversations (fst out) !! call_sid))
    /\ (let started := snd (VoiceCallEndpoint.incoming_call call_sid From s) in
        let out := Props.run_turns VoiceCallEndpoint.process_speech
                     Props.vce_turn_commits turns base call_sid started in
        Props.window_after VoiceCallEndpoint.persona (snd out)
          (conversations (fst out) !! call_sid)).
Proof.
  intros W0 cs from turns base s. split.
  - intros started out.
    destruct (run_turns_window cs Backend.process_speech Props.turn_commits
                Backend.SYSTEM_PROMPT (backend_turn_store cs)
                turns base started 0 [])
      as (msgs & Hl & Hn & Hc).
    + reflexivity.
    + constructor.
    + subst started. rewrite backend_incoming_call_store, lookup_insert_eq.
      reflexivity.
    + fold out in Hl, Hc. rewrite Hc. now apply window_after_intro.
  - intros started out.
    destruct (run_turns_window cs VoiceCallEndpoint.process_speech
                Props.vce_turn_commits VoiceCallEndpoint.persona
                (vce_turn_store cs) turns base started 0 [])
      as (msgs & Hl & Hn & Hc).
    + reflexivity.
    + constructor.
    + subst started. rewrite vce_incoming_call_store, lookup_insert_eq.
      reflexivity.
    + fold out in Hl, Hc. rewrite Hc. now apply window_after_intro.
Qed.

(** X14.  From the sixth exchange on the completion service is asked
    without the persona: after [incoming_call] and turns of which five or
    more committed, the request of the next turn of [backend/main.py] that
    goes through holds eleven messages, none of them a system message. *)
Theorem late_requests_carry_no_persona :
  forall (W0 W : World) (call_sid From : string) (turns : list (World * string))
         (base SpeechResult : string) (s : State),
    let started := snd (Backend.incoming_call W0 call_sid From s) in
    let out := Props.run_turns Backend.process_speech Props.turn_commits
                 turns base call_sid started in
    5 <= snd out ->
    Spec.passes_validation SpeechResult = true ->
    Spec.is_sentinel SpeechResult = false ->
    exists request reply,
      Spec.calls_since (fst out)
        (snd (Backend.process_speech W base call_sid SpeechResult (fst out)))
      = [ CallGroq request; CallGTTS reply ]
      /\ length request = 11
      /\ Props.no_system request.
Proof.
  intros W0 W cs from turns base sr s started out Hn Hv Hs.
  destruct (run_turns_window cs Backend.process_speech Props.turn_commits
              Backend.SYSTEM_PROMPT (backend_turn_store cs)
              turns base started 0 [])
    as (msgs & Hl & Hno & Hc).
  { reflexivity. }
  { constructor. }
  { subst started. rewrite backend_incoming_call_store, lookup_insert_eq.
    reflexivity. }
  fold out in Hl, Hc.
  destruct (window_after_intro Backend.SYSTEM_PROMPT (snd out) msgs Hl Hno)
    as (msgs' & _ & _ & _ & _ & Hlate).
  destruct (Hlate Hn) as (Heq & Hsys & Hlen).
  destruct (backend_turn_run W base cs sr (fst out) Hv Hs)
    as (e1 & e2 & e3 & e4 & s' & n & Hrun & Heff & _).
  rewrite Hrun. cbn [snd]. rewrite (effect_calls _ _ _ _ _ _ Heff).
  eexists _, _. split; [reflexivity|].
  unfold conversations_get. rewrite Hc, Heq. cbn [default from_option id].
  split.
  - rewrite length_app, Hlen. reflexivity.
  - apply Forall_app. split; [exact Hsys|]. repeat constructor. discriminate.
Qed.

(** X14, after five exchanges with a service that answers. *)
Lemma late_requests_carry_no_persona_witness :
  exists request reply,
    Spec.calls_since
      (fst (Props.run_turns Backend.process_speech Props.turn_commits
              (replicate 5 (Demo.happy, "tell me more")) Demo.base "CA1"
              (snd (Backend.incoming_call Demo.happy "CA1" "+15550100" Demo.fresh))))
      (snd (Backend.process_speech Demo.happy Demo.base "CA1" "and then?"
              (fst (Props.run_turns Backend.process_speech Props.turn_commits
                      (replicate 5 (Demo.happy, "tell me more")) Demo.base "CA1"
                      (snd (Backend.incoming_call Demo.happy "CA1" "+15550100"
                              Demo.fresh))))))
    = [ CallGroq request; CallGTTS reply ]
    /\ length request = 11
    /\ Props.no_system request.
Proof.
  apply (late_requests_carry_no_persona Demo.happy Demo.happy "CA1" "+15550100"
           (replicate 5 (Demo.happy, "tell me more")) Demo.base "and then?"
           Demo.fresh).
  - vm_compute. lia.
  - reflexivity.
  - reflexivity.
Defined.

(* ===================================================================== *)
(** * Further properties: what no handler does *)
(* ===================================================================== *)

(** X15.  The event log of [backend/main.py] is append-only.  Whatever a
    handler is given and whatever the collaborators and the disk do, and
    whether it returns or raises, the entries that were in the log before
    are there afterwards, in place: no handler removes, reorders or rewrites
    an entry. *)
Theorem backend_event_log_only_grows :
  forall (W : World) (T : Twilio)
         (base call_sid From SpeechResult message sid token phone : string)
         (creds : Credentials),
    Props.relates Props.log_grows (Backend.incoming_call W call_sid From)
    /\ Props.relates Props.log_grows
         (Backend.process_speech W base call_sid SpeechResult)
    /\ Props.relates Props.log_grows (Backend.chat_endpoint W message)
    /\ Props.relates Props.log_grows (Backend.chat_endpoint_get W message)
    /\ Props.relates Props.log_grows
         (Backend.set_twilio_credentials W T sid token phone creds).
Proof.
  intros W T base cs from sr message sid token phone creds.
  pose proof (log_grows_stable W cs) as H.
  repeat split.
  - now apply (relates_backend_incoming_call W cs).
  - now apply (relates_backend_process_speech W cs).
  - now apply (relates_backend_chat_endpoint W cs).
  - now apply (relates_backend_chat_endpoint_get W cs).
  - now apply (relates_backend_set_twilio_credentials W cs).
Qed.

(** X16.  The event log of [voicecallendpoint/main.py] is append-only in
    the same sense. *)
Theorem vce_event_log_only_grows :
  forall (W : World) (T : Twilio)
         (base call_sid From SpeechResult message sid token phone : string)
         (creds : Credentials),
    Props.relates Props.log_grows (VoiceCallEndpoint.incoming_call call_sid From)
    /\ Props.relates Props.log_grows
         (VoiceCallEndpoint.process_speech W base call_sid SpeechResult)
    /\ Props.relates Props.log_grows (VoiceCallEndpoint.chat_endpoint W message)
    /\ Props.relates Props.log_grows (VoiceCallEndpoint.chat_endpoint_get W message)
    /\ Props.relates Props.log_grows
         (VoiceCallEndpoint.set_twilio_credentials W T sid token phone creds).
Proof.
  intros W T base cs from sr message sid token phone creds.
  pose proof (log_grows_stable W cs) as H.
  repeat split.
  - now apply (relates_vce_incoming_call W cs).
  - now apply (relates_vce_process_speech W cs).
  - now apply (relates_vce_chat_endpoint W cs).
  - now apply (relates_vce_chat_endpoint_get W cs).
  - now apply (relates_vce_set_twilio_credentials W cs).
Qed.

(** X17.  A handler of one call leaves the other calls alone:
    [incoming_call] and [process_speech], on every path and in both files,
    leave the stored history of every other call identifier as it was. *)
Theorem other_calls_are_left_alone :
  forall (W : World) (base call_sid From SpeechResult : string),
    Props.relates (Props.others_untouched call_sid)
      (Backend.incoming_call W call_sid From)
    /\ Props.relates (Props.others_untouched call_sid)
         (Backend.process_speech W base call_sid SpeechResult)
    /\ Props.relates (Props.others_untouched call_sid)
         (VoiceCallEndpoint.incoming_call call_sid From)
    /\ Props.relates (Props.others_untouched call_sid)
         (VoiceCallEndpoint.process_speech W base call_sid SpeechResult).
Proof.
  intros W base cs from sr.
  pose proof (others_untouched_stable W cs) as H.
  repeat split.
  - now apply (relates_backend_incoming_call W cs).
  - now apply (relates_backend_process_speech W cs).
  - now apply (relates_vce_incoming_call W cs).
  - now apply (relates_vce_process_speech W cs).
Qed.

(** X18.  In [backend/main.py] the log file follows the log.  When the disk
    takes every write, each handler that logs an event ends with the file
    holding exactly the in-memory log, whatever state it started in: a write
    that failed earlier is made good by the next event, since every event
    rewrites the whole file.  [set_twilio_credentials], which logs on
    success only, keeps the file in step when it was. *)
Theorem backend_log_file_follows_log :
  forall (W : World) (T : Twilio)
         (base call_sid From SpeechResult message sid token phone : string)
         (creds : Credentials),
    Props.disk_works W ->
    Props.settles Props.synced (Backend.incoming_call W call_sid From)
    /\ Props.settles Props.synced (Backend.process_speech W base call_sid SpeechResult)
    /\ Props.settles Props.synced (Backend.chat_endpoint W message)
    /\ Props.settles Props.synced (Backend.chat_endpoint_get W message)
    /\ Props.keeps Props.synced
         (Backend.set_twilio_credentials W T sid token phone creds).
Proof.
  intros W T base cs from sr message sid token phone creds Hdisk.
  pose proof (synced_logged W Hdisk) as Hlog.
  pose proof (synced_stable W cs Hdisk) as Hkeep.
  repeat split.
  - now apply (settles_backend_incoming_call W).
  - now apply (settles_backend_process_speech W).
  - now apply (settles_backend_chat_endpoint W).
  - now apply (settles_backend_chat_endpoint_get W).
  - now apply (relates_backend_set_twilio_credentials W cs).
Qed.

(** X18, on a server whose first write failed: the next turn, on a disk
    that works, leaves the file in step. *)
Lemma backend_log_file_follows_log_witness :
  Props.disk_works Demo.happy
  /\ Props.synced
       (snd (Backend.process_speech Demo.happy Demo.base "CA1" "hello"
               (snd (Backend.incoming_call Demo.disk_full "CA1" "+15550100"
                       Demo.fresh)))).
Proof.
  assert (Hdisk : Props.disk_works Demo.happy) by (intros l; reflexivity).
  split; [exact Hdisk|].
  exact (proj1 (proj2
           (backend_log_file_follows_log Demo.happy Sample.twilio_ok Demo.base "CA1"
              "+15550100" "hello" "hi" Sample.sid Sample.token Sample.phone
              Sample.no_credentials Hdisk))
           (snd (Backend.incoming_call Demo.disk_full "CA1" "+15550100" Demo.fresh))).
Defined.

(** X19.  In [voicecallendpoint/main.py] the log file follows the log in
    the same way after [process_speech] and the chat handlers.
    [incoming_call] logs nothing there, and [set_twilio_credentials] logs on
    success only: they keep the file in step when it was. *)
Theorem vce_log_file_follows_log :
  forall (W : World) (T : Twilio)
         (base call_sid From SpeechResult message sid token phone : string)
         (creds : Credentials),
    Props.disk_works W ->
    Props.settles Props.synced
      (VoiceCallEndpoint.process_speech W base call_sid SpeechResult)
    /\ Props.settles Props.synced (VoiceCallEndpoint.chat_endpoint W message)
    /\ Props.settles Props.synced (VoiceCallEndpoint.chat_endpoint_get W message)
    /\ Props.keeps Props.synced (VoiceCallEndpoint.incoming_call call_sid From)
    /\ Props.keeps Props.synced
         (VoiceCallEndpoint.set_twilio_credentials W T sid token phone creds).
Proof.
  intros W T base cs from sr message sid token phone creds Hdisk.
  pose proof (synced_logged W Hdisk) as Hlog.
  pose proof (synced_stable W cs Hdisk) as Hkeep.
  repeat split.
  - now apply (settles_vce_process_speech W).
  - now apply (settles_vce_chat_endpoint W).
  - now apply (settles_vce_chat_endpoint_get W).
  - now apply (relates_vce_incoming_call W cs).
  - now apply (relates_vce_set_twilio_credentials W cs).
Qed.

(** X19, for a chat message on a server that has logged nothing yet. *)
Lemma vce_log_file_follows_log_witness :
  Props.disk_works Demo.happy
  /\ Props.synced (snd (VoiceCallEndpoint.chat_endpoint Demo.happy "hi" Demo.fresh)).
Proof.
  assert (Hdisk : Props.disk_works Demo.happy) by (intros l; reflexivity).
  split; [exact Hdisk|].
  exact (proj1 (proj2
           (vce_log_file_follows_log Demo.happy Sample.twilio_ok Demo.base "CA1"
              "+15550100" "hello" "hi" Sample.sid Sample.token Sample.phone
              Sample.no_credentials Hdisk))
           Demo.fresh).
Defined.
